(** * Dispatch and validation layer of the sparse kernels (src/array/kernel.cc)

    A shallow embedding of the argument checkers ([CheckCtx],
    [CheckContiguous], [CheckShape]), of the dispatch functions ([SpMM],
    [SDDMM], [GetEdgeMapping], [SegmentReduceDispatch],
    [BackwardSegmentCmpDispatch]) and of the four registered entry points.

    The numeric kernels, the graph storage and the tensor representation are
    collaborators of this layer; they appear here through the interface the
    code uses: a record of graph queries, a record of tensor attributes, and
    a class [Externals] for what kernel.cc takes from its headers. *)

From Stdlib Require Import ZArith List String Bool Lia.
Import ListNotations.
Open Scope Z_scope.

(** ** Tensors *)

(** Device kinds of DLPack; every kind other than the two the switch macro
    names is kept with its numeric code. *)
Inductive DLDeviceType : Type :=
| kDLCPU
| kDLGPU
| kDLOtherDevice (code : Z).

Record DLContext : Type := mkCtx {
  device_type : DLDeviceType;
  device_id : Z
}.

Inductive DLDataTypeCode : Type :=
| kDLInt
| kDLUInt
| kDLFloat
| kDLBfloat.

Record DLDataType : Type := mkDType {
  code : DLDataTypeCode;
  bits : Z;
  lanes : Z
}.

(** Modelled from the spec: the tensor representation is declared outside
    src/; section 3 gives a tensor handle a device context, an element dtype,
    a shape and a contiguity flag.  [data] identifies the caller-owned buffer
    the handle points to. *)
Record NDArray : Type := mkArray {
  ctx : DLContext;
  dtype : DLDataType;
  shape : list Z;
  IsContiguous : bool;
  data : Z
}.

(** [arrays[i]->ndim], a C int. *)
Definition ndim (a : NDArray) : Z := Z.of_nat (List.length (shape a)).

(** [arrays[i]->shape[0]], an int64_t; read only after [ndim >= 2] held. *)
Definition shape0 (a : NDArray) : Z := hd 0 (shape a).

Definition DLDeviceType_eqb (x y : DLDeviceType) : bool :=
  match x, y with
  | kDLCPU, kDLCPU => true
  | kDLGPU, kDLGPU => true
  | kDLOtherDevice m, kDLOtherDevice n => m =? n
  | _, _ => false
  end.

(** [operator==] on device contexts: same device kind and same device id. *)
Definition DLContext_eqb (x y : DLContext) : bool :=
  DLDeviceType_eqb (device_type x) (device_type y)
  && (device_id x =? device_id y).

(** Conversion of a signed 64-bit value to uint64_t, as the comparison of
    [gdim[...]] (uint64_t) with [shape[0]] (int64_t) performs it. *)
Definition to_uint64 (z : Z) : Z := z mod 2 ^ 64.

(** ** Graphs *)

Definition dgl_type_t : Type := Z.
Definition dgl_format_code_t : Type := Z.

Inductive SparseFormat : Type :=
| kCOO
| kCSR
| kCSC.

(** Compressed adjacency (used for both CSR and CSC); [csr_data] is the
    field [.data] that [GetEdgeMapping] returns. *)
Record CSRMatrix : Type := mkCSR {
  indptr : NDArray;
  indices : NDArray;
  csr_data : NDArray
}.

Record COOMatrix : Type := mkCOO {
  row : NDArray;
  col : NDArray
}.

(** The queries kernel.cc makes on a graph handle.  [GraphContext] is
    [graph->Context()], [FindEdge] is [graph->meta_graph()->FindEdge]. *)
Record HeteroGraph : Type := mkGraph {
  GraphContext : DLContext;
  DataType : DLDataType;
  NumEdgeTypes : Z;
  FindEdge : dgl_type_t -> dgl_type_t * dgl_type_t;
  NumVertices : dgl_type_t -> Z;
  NumEdges : dgl_type_t -> Z;
  SelectFormat : dgl_type_t -> dgl_format_code_t -> SparseFormat;
  GetCSCMatrix : dgl_type_t -> CSRMatrix;
  GetCSRMatrix : dgl_type_t -> CSRMatrix;
  GetCOOMatrix : dgl_type_t -> COOMatrix
}.

(** ** Failures *)

Inductive DispatchAxis : Type :=
| AxisBackend
| AxisIndexWidth
| AxisFloatBits.

Inductive ShapeFault : Type :=
| TooFewDims (ndim_got : Z)
| LeadingDim (expected got : Z).

(** One constructor per failing statement of kernel.cc; the string is the
    operand or operator name the message prints. *)
Inductive Error : Type :=
| ContextMismatch (name : string)
| NotContiguous (name : string)
| ShapeMismatch (name : string) (fault : ShapeFault)
| EdgeTypeCount (got : Z)
| BroadcastIncompatible
| UnsupportedDispatch (axis : DispatchAxis) (what : string)
| UnsupportedFormat (message : string)
| KernelFailure.

(** The three kinds of failure raised by the tensor contract checker. *)
Definition is_validation_error (e : Error) : bool :=
  match e with
  | ContextMismatch _ | NotContiguous _ | ShapeMismatch _ _ => true
  | _ => false
  end.

Definition is_shape_error (e : Error) : bool :=
  match e with
  | ShapeMismatch _ _ => true
  | _ => false
  end.

Definition is_contiguity_error (e : Error) : bool :=
  match e with
  | NotContiguous _ => true
  | _ => false
  end.

(** Result of a statement: it completes, it aborts the call with a fatal
    error, or it reads a vector out of range (undefined in C++). *)
Inductive Outcome (A : Type) : Type :=
| Done (a : A)
| Fatal (e : Error)
| Undefined.

Arguments Done {A} a.
Arguments Fatal {A} e.
Arguments Undefined {A}.

(** [v[i]] for an int index converted to size_t: negative indices are out of
    range like the too large ones. *)
Definition vec_at {A : Type} (v : list A) (i : Z) : option A :=
  if i <? 0 then None else nth_error v (Z.to_nat i).

(** ** Kernel instantiations *)

Inductive IdType : Type :=
| int32_t
| int64_t.

(** A kernel call: the template arguments (backend, index type, float bits)
    followed by the run-time arguments, as written at each call site. *)
Inductive KernelCall (B : Type) : Type :=
| SpMMCsr (XPU : DLDeviceType) (IdT : IdType) (fbits : Z)
    (op reduce : string) (bcast : B) (csr : CSRMatrix)
    (ufeat efeat out : NDArray) (out_aux : list NDArray)
| SpMMCoo (XPU : DLDeviceType) (IdT : IdType) (fbits : Z)
    (op reduce : string) (bcast : B) (coo : COOMatrix)
    (ufeat efeat out : NDArray) (out_aux : list NDArray)
| SDDMMCsr (XPU : DLDeviceType) (IdT : IdType) (fbits : Z)
    (op : string) (bcast : B) (csr : CSRMatrix)
    (lhs rhs out : NDArray) (lhs_target rhs_target : Z)
| SDDMMCoo (XPU : DLDeviceType) (IdT : IdType) (fbits : Z)
    (op : string) (bcast : B) (coo : COOMatrix)
    (lhs rhs out : NDArray) (lhs_target rhs_target : Z)
| SegmentReduce (XPU : DLDeviceType) (IdT : IdType) (fbits : Z)
    (op : string) (feat offsets out arg : NDArray)
| BackwardSegmentCmp (XPU : DLDeviceType) (IdT : IdType) (fbits : Z)
    (feat arg out : NDArray).

Arguments SpMMCsr {B}.
Arguments SpMMCoo {B}.
Arguments SDDMMCsr {B}.
Arguments SDDMMCoo {B}.
Arguments SegmentReduce {B}.
Arguments BackwardSegmentCmp {B}.

(** The dispatch key of a kernel call. *)
Definition kernel_key {B : Type} (k : KernelCall B) : DLDeviceType * IdType * Z :=
  match k with
  | SpMMCsr x i b _ _ _ _ _ _ _ _ => (x, i, b)
  | SpMMCoo x i b _ _ _ _ _ _ _ _ => (x, i, b)
  | SDDMMCsr x i b _ _ _ _ _ _ _ _ => (x, i, b)
  | SDDMMCoo x i b _ _ _ _ _ _ _ _ => (x, i, b)
  | SegmentReduce x i b _ _ _ _ _ => (x, i, b)
  | BackwardSegmentCmp x i b _ _ _ => (x, i, b)
  end.

(** ** What kernel.cc takes from its headers

    The null-array test, the broadcast resolver, the format codes, the three
    switch macros and the kernels themselves are declared outside src/.  They
    are parameters of the development: [None] is the fatal branch of a macro
    or of the resolver, and a kernel returns whether it completed together
    with the buffers it leaves. *)
Class Externals : Type := {
  Buffers : Type;
  BcastOff : Type;
  IsNullArray : NDArray -> bool;
  NullArray : NDArray;
  CalcBcastOff : string -> NDArray -> NDArray -> option BcastOff;
  csc_code : dgl_format_code_t;
  coo_code : dgl_format_code_t;
  ATEN_XPU_SWITCH_CUDA : DLDeviceType -> option DLDeviceType;
  ATEN_ID_TYPE_SWITCH : DLDataType -> option IdType;
  ATEN_FLOAT_BITS_SWITCH : DLDataType -> option Z;
  run_kernel : KernelCall BcastOff -> Buffers -> bool * Buffers
}.

Section Kernel.

Context `{Ext : Externals}.

(** ** The state a call acts on

    The caller-owned buffers, and the record of what the call asked of its
    collaborators: format requests made to the graph and kernels started. *)
Inductive Event : Type :=
| SelectFormatRequest (etype : dgl_type_t) (preferred : dgl_format_code_t)
| KernelRun (k : KernelCall BcastOff).

Record World : Type := mkWorld {
  buffers : Buffers;
  trace : list Event
}.

Definition M (A : Type) : Type := World -> Outcome A * World.

Definition ret {A : Type} (a : A) : M A := fun w => (Done a, w).

Definition bind {A B : Type} (m : M A) (f : A -> M B) : M B :=
  fun w =>
    match m w with
    | (Done a, w') => f a w'
    | (Fatal e, w') => (Fatal e, w')
    | (Undefined, w') => (Undefined, w')
    end.

(** A statement that reads but never writes. *)
Definition lift {A : Type} (o : Outcome A) : M A := fun w => (o, w).

Definition fatal {A : Type} (e : Error) : M A := lift (Fatal e).

Notation "x <- m ;; k" := (bind m (fun x => k))
  (at level 61, m at next level, right associativity).
Notation "m ;; k" := (bind m (fun _ => k))
  (at level 61, right associativity).

(** [graph->SelectFormat(etype, preferred)]. *)
Definition select_format (graph : HeteroGraph) (etype : dgl_type_t)
    (preferred : dgl_format_code_t) : M SparseFormat :=
  fun w =>
    (Done (SelectFormat graph etype preferred),
     mkWorld (buffers w) (trace w ++ [SelectFormatRequest etype preferred])).

(** A kernel call: the only statement that writes to the buffers. *)
Definition invoke (k : KernelCall BcastOff) : M unit :=
  fun w =>
    let (ok, b) := run_kernel k (buffers w) in
    ((if ok then Done tt else Fatal KernelFailure),
     mkWorld b (trace w ++ [KernelRun k])).

(** ** The tensor contract checker

    Each loop runs over [arrays] from index [i]; [names[i]] is read only to
    print the message of a failed check. *)
Definition fail_named (names : list string) (i : nat)
    (e : string -> Error) : Outcome unit :=
  match nth_error names i with
  | Some n => Fatal (e n)
  | None => Undefined
  end.

Fixpoint CheckCtx_from (i : nat) (c : DLContext) (arrays : list NDArray)
    (names : list string) : Outcome unit :=
  match arrays with
  | [] => Done tt
  | a :: rest =>
      if IsNullArray a then CheckCtx_from (S i) c rest names
      else if DLContext_eqb c (ctx a) then CheckCtx_from (S i) c rest names
      else fail_named names i ContextMismatch
  end.

Definition CheckCtx (c : DLContext) (arrays : list NDArray)
    (names : list string) : Outcome unit :=
  CheckCtx_from 0 c arrays names.

Fixpoint CheckContiguous_from (i : nat) (arrays : list NDArray)
    (names : list string) : Outcome unit :=
  match arrays with
  | [] => Done tt
  | a :: rest =>
      if IsNullArray a then CheckContiguous_from (S i) rest names
      else if IsContiguous a then CheckContiguous_from (S i) rest names
      else fail_named names i NotContiguous
  end.

Definition CheckContiguous (arrays : list NDArray)
    (names : list string) : Outcome unit :=
  CheckContiguous_from 0 arrays names.

Fixpoint CheckShape_from (i : nat) (gdim : list Z) (uev_idx : list Z)
    (arrays : list NDArray) (names : list string) : Outcome unit :=
  match arrays with
  | [] => Done tt
  | a :: rest =>
      if IsNullArray a then CheckShape_from (S i) gdim uev_idx rest names
      else if ndim a <? 2 then
        fail_named names i (fun n => ShapeMismatch n (TooFewDims (ndim a)))
      else
        match nth_error uev_idx i with
        | None => Undefined
        | Some j =>
            match vec_at gdim j with
            | None => Undefined
            | Some g =>
                if g =? to_uint64 (shape0 a) then
                  CheckShape_from (S i) gdim uev_idx rest names
                else
                  fail_named names i
                    (fun n => ShapeMismatch n (LeadingDim g (shape0 a)))
            end
        end
  end.

Definition CheckShape (gdim : list Z) (uev_idx : list Z)
    (arrays : list NDArray) (names : list string) : Outcome unit :=
  CheckShape_from 0 gdim uev_idx arrays names.

(** [CHECK_EQ(graph->NumEdgeTypes(), 1)]. *)
Definition CheckEdgeTypes (graph : HeteroGraph) : Outcome unit :=
  if NumEdgeTypes graph =? 1 then Done tt
  else Fatal (EdgeTypeCount (NumEdgeTypes graph)).

(** ** The dispatch matrix: the three nested switch macros *)
Definition xpu_switch (val : DLDeviceType) (op : string) : M DLDeviceType :=
  match ATEN_XPU_SWITCH_CUDA val with
  | Some XPU => ret XPU
  | None => fatal (UnsupportedDispatch AxisBackend op)
  end.

Definition id_type_switch (val : DLDataType) : M IdType :=
  match ATEN_ID_TYPE_SWITCH val with
  | Some IdT => ret IdT
  | None => fatal (UnsupportedDispatch AxisIndexWidth "ID")
  end.

Definition float_bits_switch (val : DLDataType) (val_name : string) : M Z :=
  match ATEN_FLOAT_BITS_SWITCH val with
  | Some fbits => ret fbits
  | None => fatal (UnsupportedDispatch AxisFloatBits val_name)
  end.

Definition calc_bcast (op : string) (lhs rhs : NDArray) : M BcastOff :=
  match CalcBcastOff op lhs rhs with
  | Some bcast => ret bcast
  | None => fatal BroadcastIncompatible
  end.

(** ** Generalized SpMM and SDDMM *)
Definition SpMM (op reduce : string) (graph : HeteroGraph)
    (ufeat efeat out : NDArray) (out_aux : list NDArray) : M unit :=
  format <- select_format graph 0 csc_code ;;
  bcast <- calc_bcast op ufeat efeat ;;
  XPU <- xpu_switch (device_type (GraphContext graph)) "SpMM" ;;
  IdT <- id_type_switch (DataType graph) ;;
  fbits <- float_bits_switch (dtype out) "Feature data" ;;
  match format with
  | kCSC =>
      invoke (SpMMCsr XPU IdT fbits op reduce bcast (GetCSCMatrix graph 0)
                ufeat efeat out out_aux)
  | kCOO =>
      invoke (SpMMCoo XPU IdT fbits op reduce bcast (GetCOOMatrix graph 0)
                ufeat efeat out out_aux)
  | kCSR => fatal (UnsupportedFormat "SpMM only supports CSC and COO foramts")
  end.

Definition SDDMM (op : string) (graph : HeteroGraph)
    (lhs rhs out : NDArray) (lhs_target rhs_target : Z) : M unit :=
  format <- select_format graph 0 coo_code ;;
  bcast <- calc_bcast op lhs rhs ;;
  XPU <- xpu_switch (device_type (GraphContext graph)) "SDDMM" ;;
  IdT <- id_type_switch (DataType graph) ;;
  fbits <- float_bits_switch (dtype out) "Feature data" ;;
  match format with
  | kCSR =>
      invoke (SDDMMCsr XPU IdT fbits op bcast (GetCSRMatrix graph 0)
                lhs rhs out lhs_target rhs_target)
  | kCOO =>
      invoke (SDDMMCoo XPU IdT fbits op bcast (GetCOOMatrix graph 0)
                lhs rhs out lhs_target rhs_target)
  | kCSC => fatal (UnsupportedFormat "SDDMM only supports CSR and COO foramts")
  end.

Definition GetEdgeMapping (graph : HeteroGraph) : M NDArray :=
  format <- select_format graph 0 csc_code ;;
  match format with
  | kCSC => ret (csr_data (GetCSCMatrix graph 0))
  | _ => ret NullArray
  end.

(** ** Segment reduce and its backward pass *)
Definition SegmentReduceDispatch (op : string)
    (feat offsets out arg : NDArray) : M unit :=
  XPU <- xpu_switch (device_type (ctx feat)) "SegmentReduce" ;;
  IdT <- id_type_switch (dtype offsets) ;;
  fbits <- float_bits_switch (dtype feat) "Feature data" ;;
  invoke (SegmentReduce XPU IdT fbits op feat offsets out arg).

Definition BackwardSegmentCmpDispatch (feat arg out : NDArray) : M unit :=
  XPU <- xpu_switch (device_type (ctx feat)) "BackwardSegmentCmp" ;;
  IdT <- id_type_switch (dtype arg) ;;
  fbits <- float_bits_switch (dtype feat) "Feature data" ;;
  invoke (BackwardSegmentCmp XPU IdT fbits feat arg out).

(** ** The registered entry points *)
Definition SpMM_names : list string :=
  ["U_data"; "E_data"; "out"; "Arg_U"; "Arg_E"]%string.

Definition _CAPI_DGLKernelSpMM (graph : HeteroGraph) (op reduce_op : string)
    (U E V ArgU ArgE : NDArray) : M unit :=
  lift (CheckCtx (GraphContext graph) [U; E; V; ArgU; ArgE] SpMM_names) ;;
  lift (CheckContiguous [U; E; V; ArgU; ArgE] SpMM_names) ;;
  lift (CheckEdgeTypes graph) ;;
  let pair := FindEdge graph 0 in
  let src_vtype := fst pair in
  let dst_vtype := snd pair in
  lift (CheckShape
          [NumVertices graph src_vtype; NumEdges graph 0;
           NumVertices graph dst_vtype]
          [0; 1; 2; 2; 2]
          [U; E; V; ArgU; ArgE] SpMM_names) ;;
  SpMM op reduce_op graph U E V [ArgU; ArgE].

Definition _CAPI_DGLKernelSDDMM (graph : HeteroGraph) (op : string)
    (lhs rhs out : NDArray) (lhs_target rhs_target : Z) : M unit :=
  lift (CheckCtx (GraphContext graph) [lhs; rhs; out]
          ["lhs"; "rhs"; "out"]%string) ;;
  lift (CheckContiguous [lhs; rhs; out] ["lhs"; "rhs"; "out"]%string) ;;
  lift (CheckEdgeTypes graph) ;;
  let pair := FindEdge graph 0 in
  let src_vtype := fst pair in
  let dst_vtype := snd pair in
  lift (CheckShape
          [NumVertices graph src_vtype; NumEdges graph 0;
           NumVertices graph dst_vtype]
          [lhs_target; rhs_target; 1]
          [lhs; rhs; out] ["U_data"; "E_data"; "V_data"]%string) ;;
  SDDMM op graph lhs rhs out lhs_target rhs_target.

Definition _CAPI_DGLKernelSegmentReduce (op : string)
    (feat offsets out arg : NDArray) : M unit :=
  lift (CheckCtx (ctx feat) [feat; offsets; out]
          ["feat"; "offsets"; "out"]%string) ;;
  lift (CheckContiguous [feat; offsets; out]
          ["feat"; "offsets"; "out"]%string) ;;
  SegmentReduceDispatch op feat offsets out arg.

Definition _CAPI_DGLKernelBwdSegmentCmp (feat arg out : NDArray) : M unit :=
  lift (CheckCtx (ctx feat) [feat; arg; out] ["feat"; "arg"; "out"]%string) ;;
  lift (CheckContiguous [feat; arg; out] ["feat"; "arg"; "out"]%string) ;;
  BackwardSegmentCmpDispatch feat arg out.

Definition _CAPI_DGLKernelGetEdgeMapping (graph : HeteroGraph) : M NDArray :=
  GetEdgeMapping graph.

(** ** Observations on a run *)

(** The kernels started, in order. *)
Fixpoint kernel_runs (t : list Event) : list (KernelCall BcastOff) :=
  match t with
  | [] => []
  | KernelRun k :: t' => k :: kernel_runs t'
  | SelectFormatRequest _ _ :: t' => kernel_runs t'
  end.

(** The format requests made to the graph, in order. *)
Fixpoint format_requests (t : list Event)
    : list (dgl_type_t * dgl_format_code_t) :=
  match t with
  | [] => []
  | SelectFormatRequest etype preferred :: t' =>
      (etype, preferred) :: format_requests t'
  | KernelRun _ :: t' => format_requests t'
  end.

(** [starts run w ks]: run from [w], the call starts the kernels [ks], in
    that order, and no other. *)
Definition starts {A : Type} (run : M A) (w : World)
    (ks : list (KernelCall BcastOff)) : Prop :=
  kernel_runs (trace (snd (run w))) = kernel_runs (trace w) ++ ks.

(** The three nested switches as one resolution function: backend from a
    device kind, index type from an index dtype, float bits from a feature
    dtype. *)
Definition dispatch_key (dev : DLDeviceType) (idx flt : DLDataType)
    : option (DLDeviceType * IdType * Z) :=
  match ATEN_XPU_SWITCH_CUDA dev with
  | None => None
  | Some XPU =>
      match ATEN_ID_TYPE_SWITCH idx with
      | None => None
      | Some IdT =>
          match ATEN_FLOAT_BITS_SWITCH flt with
          | None => None
          | Some fbits => Some (XPU, IdT, fbits)
          end
      end
  end.

Definition is_dispatch_error (e : Error) : bool :=
  match e with
  | UnsupportedDispatch _ _ => true
  | _ => false
  end.

(** ** Operand roles

    The structural count each operand of SpMM must lead with. *)
Definition SpMM_operands (graph : HeteroGraph) (U E V ArgU ArgE : NDArray)
    : list (NDArray * Z) :=
  let src_vtype := fst (FindEdge graph 0) in
  let dst_vtype := snd (FindEdge graph 0) in
  [(U, NumVertices graph src_vtype);
   (E, NumEdges graph 0);
   (V, NumVertices graph dst_vtype);
   (ArgU, NumVertices graph dst_vtype);
   (ArgE, NumVertices graph dst_vtype)].

(** The count a target selects: 0 the source vertices, 1 the edges, 2 the
    destination vertices. *)
Definition count_of_target (graph : HeteroGraph) (target : Z) : Z :=
  if target =? 0 then NumVertices graph (fst (FindEdge graph 0))
  else if target =? 1 then NumEdges graph 0
  else NumVertices graph (snd (FindEdge graph 0)).

Definition SDDMM_operands (graph : HeteroGraph) (lhs rhs out : NDArray)
    (lhs_target rhs_target : Z) : list (NDArray * Z) :=
  [(lhs, count_of_target graph lhs_target);
   (rhs, count_of_target graph rhs_target);
   (out, NumEdges graph 0)].

(** What the checks accept of one operand. *)
Definition ctx_ok (c : DLContext) (a : NDArray) : bool :=
  IsNullArray a || DLContext_eqb c (ctx a).

Definition contiguous_ok (a : NDArray) : bool :=
  IsNullArray a || IsContiguous a.

Definition shape_ok (count : Z) (a : NDArray) : bool :=
  IsNullArray a || (negb (ndim a <? 2) && (count =? to_uint64 (shape0 a))).

(** ** Readings of the specification that the code is compared with *)

(** Section 6 on GetEdgeMapping: the result is the edge mapping of the format
    the graph selects.  For the two compressed formats that mapping is the
    [.data] array of the matrix. *)
Definition format_edge_mapping (graph : HeteroGraph) (f : SparseFormat)
    : option NDArray :=
  match f with
  | kCSC => Some (csr_data (GetCSCMatrix graph 0))
  | kCSR => Some (csr_data (GetCSRMatrix graph 0))
  | kCOO => None
  end.

Definition returns_mapping_of_selected_format : Prop :=
  forall (graph : HeteroGraph) (w : World) (m : NDArray),
    format_edge_mapping graph (SelectFormat graph 0 csc_code) = Some m ->
    exists r, fst (GetEdgeMapping graph w) = Done r
              /\ IsNullArray r = IsNullArray m
              /\ (IsNullArray m = false -> r = m).

(** Section 4.4 read for every dispatch: the float bits of a started kernel
    are those of the output tensor's dtype. *)
Definition float_bits_from_output : Prop :=
  forall (op : string) (feat offsets out arg : NDArray) (w : World)
         (ks : list (KernelCall BcastOff)) (k : KernelCall BcastOff),
    starts (SegmentReduceDispatch op feat offsets out arg) w ks ->
    In k ks ->
    ATEN_FLOAT_BITS_SWITCH (dtype out) = Some (snd (kernel_key k)).

(** Section 6 on SpMM: a max or min reduce without both auxiliary tensors is
    rejected before any kernel is started. *)
Definition is_cmp_reduce (reduce : string) : bool :=
  String.eqb reduce "max" || String.eqb reduce "min".

Definition aux_required_for_cmp : Prop :=
  forall (graph : HeteroGraph) (op reduce : string)
         (U E V ArgU ArgE : NDArray) (w : World),
    is_cmp_reduce reduce = true ->
    IsNullArray ArgU = true \/ IsNullArray ArgE = true ->
    (exists e, fst (_CAPI_DGLKernelSpMM graph op reduce U E V ArgU ArgE w)
               = Fatal e)
    /\ starts (_CAPI_DGLKernelSpMM graph op reduce U E V ArgU ArgE) w [].

(** Section 8, contiguity law, at the SegmentReduce entry point. *)
Definition noncontiguous_operand_rejected : Prop :=
  forall (op : string) (feat offsets out arg : NDArray) (w : World)
         (t : NDArray),
    In t [feat; offsets; out; arg] ->
    IsNullArray t = false ->
    IsContiguous t = false ->
    exists e, _CAPI_DGLKernelSegmentReduce op feat offsets out arg w
              = (Fatal e, w)
              /\ is_contiguity_error e = true.

(** BackwardSegmentCmp: whatever passes the two checks reaches the kernel. *)
Definition checked_reaches_kernel : Prop :=
  forall (feat arg out : NDArray) (w : World),
    CheckCtx (ctx feat) [feat; arg; out] ["feat"; "arg"; "out"]%string
      = Done tt ->
    CheckContiguous [feat; arg; out] ["feat"; "arg"; "out"]%string
      = Done tt ->
    exists k, starts (_CAPI_DGLKernelBwdSegmentCmp feat arg out) w [k].

End Kernel.

(** ** A concrete reading of the collaborators, for running the code *)
Module SpecModel.

Definition cpu0 : DLContext := mkCtx kDLCPU 0.
Definition gpu0 : DLContext := mkCtx kDLGPU 0.
Definition int32 : DLDataType := mkDType kDLInt 32 1.
Definition int64 : DLDataType := mkDType kDLInt 64 1.
Definition float32 : DLDataType := mkDType kDLFloat 32 1.
Definition float64 : DLDataType := mkDType kDLFloat 64 1.

(** Modelled from the spec: the null sentinel of section 3 ("argument
    absent") is declared outside src/; it is taken to be the tensor with no
    rows, and [null_array] is the one-dimensional tensor of length zero. *)
Definition is_null_array (a : NDArray) : bool :=
  match shape a with
  | d :: _ => d =? 0
  | [] => false
  end.

Definition null_array : NDArray := mkArray cpu0 int64 [0] true 0.

(** Modelled from the spec: the broadcast resolver of section 4.2 is declared
    outside src/.  Feature dimensions (all but the leading one) are aligned
    from the last outward, the shorter shape is padded with ones, a one
    stretches to the other side, unequal sizes other than one fail; the
    descriptor kept here is the output feature shape. *)
Fixpoint bcast_aligned (l r : list Z) : option (list Z) :=
  match l, r with
  | [], _ => Some r
  | _, [] => Some l
  | x :: l', y :: r' =>
      match bcast_aligned l' r' with
      | None => None
      | Some s =>
          if x =? y then Some (x :: s)
          else if x =? 1 then Some (y :: s)
          else if y =? 1 then Some (x :: s)
          else None
      end
  end.

(** Modelled from the spec: [CalcBcastOff] is declared outside src/; by
    section 4.5 a null operand leaves the feature shape of the other one. *)
Definition calc_bcast_off (op : string) (lhs rhs : NDArray) : option (list Z) :=
  if is_null_array lhs then Some (tl (shape rhs))
  else if is_null_array rhs then Some (tl (shape lhs))
  else option_map (@rev Z)
         (bcast_aligned (rev (tl (shape lhs))) (rev (tl (shape rhs)))).

(** Modelled from the spec: the switch macros are declared outside src/;
    section 4.4 enumerates the backends {host, accelerator}, the index widths
    {32, 64} and the float precisions {16, 32, 64, and a second 16-bit
    variant}; everything else takes the fatal branch. *)
Definition xpu_switch_cuda (val : DLDeviceType) : option DLDeviceType :=
  match val with
  | kDLCPU => Some kDLCPU
  | kDLGPU => Some kDLGPU
  | kDLOtherDevice _ => None
  end.

(** Modelled from the spec: the index switch of section 4.4, integer dtypes
    of 32 or 64 bits. *)
Definition id_type_switch (val : DLDataType) : option IdType :=
  match code val with
  | kDLInt =>
      if bits val =? 32 then Some int32_t
      else if bits val =? 64 then Some int64_t
      else None
  | _ => None
  end.

(** Modelled from the spec: the float switch of section 4.4; the kernels
    are instantiated by a number of bits, so the second 16-bit variant shares
    the 16-bit instantiation. *)
Definition float_bits_switch (val : DLDataType) : option Z :=
  match code val with
  | kDLFloat =>
      if (bits val =? 16) || (bits val =? 32) || (bits val =? 64)
      then Some (bits val) else None
  | kDLBfloat => if bits val =? 16 then Some 16 else None
  | _ => None
  end.

(** Modelled from the spec: the kernels are declared outside src/; by
    section 2 an engine writes into the caller-provided output buffer and,
    when present, the auxiliary buffers.  The buffers are kept as the list of
    the buffer identities written so far, so an untouched buffer is one that
    does not occur. *)
Definition written_by (k : KernelCall (list Z)) : list Z :=
  let present := filter (fun a => negb (is_null_array a)) in
  match k with
  | SpMMCsr _ _ _ _ _ _ _ _ _ out out_aux => map data (out :: present out_aux)
  | SpMMCoo _ _ _ _ _ _ _ _ _ out out_aux => map data (out :: present out_aux)
  | SDDMMCsr _ _ _ _ _ _ _ _ out _ _ => [data out]
  | SDDMMCoo _ _ _ _ _ _ _ _ out _ _ => [data out]
  | SegmentReduce _ _ _ _ _ _ out arg => map data (out :: present [arg])
  | BackwardSegmentCmp _ _ _ _ _ out => [data out]
  end.

(** Modelled from the spec: the collaborators above put together; the two
    format codes are declared outside src/ and are given distinct values. *)
Definition model : Externals := {|
  Buffers := list Z;
  BcastOff := list Z;
  IsNullArray := is_null_array;
  NullArray := null_array;
  CalcBcastOff := calc_bcast_off;
  csc_code := 4;
  coo_code := 1;
  ATEN_XPU_SWITCH_CUDA := xpu_switch_cuda;
  ATEN_ID_TYPE_SWITCH := id_type_switch;
  ATEN_FLOAT_BITS_SWITCH := float_bits_switch;
  run_kernel := fun k b => (true, b ++ written_by k)
|}.

(** *** Sample inputs: a graph with 3 source vertices, 2 destination
    vertices and 4 edges of a single type. *)
Definition tensor (c : DLContext) (t : DLDataType) (s : list Z)
    (contiguous : bool) (id : Z) : NDArray :=
  mkArray c t s contiguous id.

Definition some_csr (mapping : NDArray) : CSRMatrix :=
  mkCSR (tensor cpu0 int64 [3] true 100) (tensor cpu0 int64 [4] true 101)
        mapping.

Definition some_coo : COOMatrix :=
  mkCOO (tensor cpu0 int64 [4] true 102) (tensor cpu0 int64 [4] true 103).

Definition edge_permutation : NDArray := tensor cpu0 int64 [4] true 104.

(** A graph that answers every format request with [fmt]. *)
Definition graph_with (fmt : SparseFormat) (etypes : Z) : HeteroGraph :=
  mkGraph cpu0 int64 etypes
    (fun _ => (0, 1))
    (fun vtype => if vtype =? 0 then 3 else 2)
    (fun _ => 4)
    (fun _ _ => fmt)
    (fun _ => some_csr edge_permutation)
    (fun _ => some_csr edge_permutation)
    (fun _ => some_coo).

Definition U_ok : NDArray := tensor cpu0 float32 [3; 8] true 1.
Definition E_ok : NDArray := tensor cpu0 float32 [4; 1] true 2.
Definition V_ok : NDArray := tensor cpu0 float32 [2; 8] true 3.
Definition U_flat : NDArray := tensor cpu0 float32 [3] true 1.
Definition U_short : NDArray := tensor cpu0 float32 [2; 8] true 1.
Definition U_gpu : NDArray := tensor gpu0 float32 [3; 8] true 1.
Definition out_edges : NDArray := tensor cpu0 float32 [4; 8] true 6.

Definition feat32 : NDArray := tensor cpu0 float32 [6; 8] true 10.
Definition feat_int : NDArray := tensor cpu0 int32 [6; 8] true 10.
Definition offsets64 : NDArray := tensor cpu0 int64 [3] true 11.
Definition out32 : NDArray := tensor cpu0 float32 [2; 8] true 12.
Definition out64 : NDArray := tensor cpu0 float64 [2; 8] true 12.
Definition arg_strided : NDArray := tensor cpu0 int64 [2; 8] false 13.
Definition arg_ok : NDArray := tensor cpu0 int64 [2; 8] true 13.
Definition grad_in : NDArray := tensor cpu0 float32 [6; 8] true 14.

Definition world0 : @World model := @mkWorld model [] [].

End SpecModel.

(** ** The FeatGraph entry point (compiled with USE_TVM)

    [dgl::featgraph::SDDMMTreeReduction] is declared in featgraph.h; it takes
    the row and column arrays of the COO matrix and the three tensors, and is
    a parameter here like the other kernels.  It is not one of the kernel
    instantiations of the dispatch matrix, so the call leaves the trace as it
    is and shows in the buffers only. *)
Section FeatGraph.

Context `{Ext : Externals}.

Variable SDDMMTreeReduction :
  NDArray -> NDArray -> NDArray -> NDArray -> NDArray ->
  Buffers -> bool * Buffers.

Definition _CAPI_FG_SDDMMTreeReduction (graph : HeteroGraph)
    (lhs rhs out : NDArray) : M unit :=
  bind (lift (CheckCtx (GraphContext graph) [lhs; rhs; out]
                ["lhs"; "rhs"; "out"]%string)) (fun _ =>
  bind (lift (CheckContiguous [lhs; rhs; out]
                ["lhs"; "rhs"; "out"]%string)) (fun _ =>
  bind (lift (CheckEdgeTypes graph)) (fun _ =>
  let coo := GetCOOMatrix graph 0 in
  fun w =>
    let (ok, b) :=
      SDDMMTreeReduction (row coo) (col coo) lhs rhs out (buffers w) in
    ((if ok then Done tt else Fatal KernelFailure),
     mkWorld b (trace w))))).

End FeatGraph.

(** ** The discipline of a call

    What every call of this layer keeps to: it starts at most one kernel, it
    only adds to the record of requests and kernel starts, and it leaves the
    buffers alone unless it starts a kernel. *)
Section Discipline.

Context `{Ext : Externals}.

Definition single_kernel_call {A : Type} (run : M A) : Prop :=
  forall w,
    exists ks,
      starts run w ks
      /\ (List.length ks <= 1)%nat
      /\ (ks = [] -> buffers (snd (run w)) = buffers w)
      /\ exists t, trace (snd (run w)) = trace w ++ t.

End Discipline.

(** *** More sample inputs *)
Module MoreInputs.

Import SpecModel.

(** Modelled from the spec: the FeatGraph kernel is declared outside src/;
    like the other kernels it is taken to write the output buffer. *)
Definition tree_reduction (row col lhs rhs out : NDArray) (b : list Z)
    : bool * list Z :=
  (true, b ++ [data out]).

Definition E_strided : NDArray := tensor cpu0 float32 [4; 1] false 2.
Definition E_gpu : NDArray := tensor gpu0 float32 [4; 1] true 2.
Definition E_flat : NDArray := tensor cpu0 float32 [4] true 2.
Definition E_short : NDArray := tensor cpu0 float32 [3; 1] true 2.
Definition E_wide : NDArray := tensor cpu0 float32 [4; 5] true 2.
Definition out_gpu : NDArray := tensor gpu0 float32 [2; 8] true 12.
Definition out_strided : NDArray := tensor cpu0 float32 [2; 8] false 12.
Definition other_null : NDArray := tensor gpu0 float32 [0; 7] false 99.
Definition lhs_odd : NDArray := tensor cpu0 float32 [7; 8] true 1.

End MoreInputs.

(** * Properties *)
Section KernelFacts.

Context `{Ext : Externals}.

Create HintDb kernel_unfold.
#[local] Hint Unfold SpMM SDDMM GetEdgeMapping SegmentReduceDispatch
  BackwardSegmentCmpDispatch select_format calc_bcast xpu_switch
  id_type_switch float_bits_switch invoke bind ret fatal lift : kernel_unfold.

(** ** The monad *)
Lemma bind_lift {A B : Type} (o : Outcome A) (f : A -> M B) (w : World) :
  bind (lift o) f w =
  match o with
  | Done a => f a w
  | Fatal e => (Fatal e, w)
  | Undefined => (Undefined, w)
  end.
Proof. unfold bind, lift. destruct o; reflexivity. Qed.

Lemma kernel_runs_app (t1 t2 : list Event) :
  kernel_runs (t1 ++ t2) = kernel_runs t1 ++ kernel_runs t2.
Proof.
  induction t1 as [|ev t1 IH]; [reflexivity|].
  destruct ev; cbn; rewrite IH; reflexivity.
Qed.

Lemma format_requests_app (t1 t2 : list Event) :
  format_requests (t1 ++ t2) = format_requests t1 ++ format_requests t2.
Proof.
  induction t1 as [|ev t1 IH]; [reflexivity|].
  destruct ev; cbn; rewrite IH; reflexivity.
Qed.

(** ** The checker loops *)
Lemma fail_named_not_Done names i e : fail_named names i e <> Done tt.
Proof. unfold fail_named. destruct (nth_error names i); discriminate. Qed.

Lemma fail_named_Fatal names i e err :
  fail_named names i e = Fatal err -> exists n, In n names /\ err = e n.
Proof.
  unfold fail_named. destruct (nth_error names i) as [n|] eqn:Hn; [|discriminate].
  intros H. injection H as <-. exists n. split; [|reflexivity].
  eapply nth_error_In; eassumption.
Qed.

Lemma fail_named_defined names i e :
  (i < List.length names)%nat -> fail_named names i e <> Undefined.
Proof.
  intros Hi. unfold fail_named.
  destruct (nth_error names i) eqn:Hn; [discriminate|].
  apply nth_error_None in Hn. lia.
Qed.

Lemma CheckCtx_from_Done c names arrays : forall i,
  CheckCtx_from i c arrays names = Done tt <->
  forallb (ctx_ok c) arrays = true.
Proof.
  induction arrays as [|a rest IH]; intros i; cbn; [tauto|].
  unfold ctx_ok at 1.
  destruct (IsNullArray a); cbn; [apply IH|].
  destruct (DLContext_eqb c (ctx a)); cbn; [apply IH|].
  split; [|discriminate]. intros H. now apply fail_named_not_Done in H.
Qed.

Lemma CheckCtx_from_Fatal c names arrays e : forall i,
  CheckCtx_from i c arrays names = Fatal e ->
  exists n, In n names /\ e = ContextMismatch n.
Proof.
  induction arrays as [|a rest IH]; intros i; cbn; [discriminate|].
  destruct (IsNullArray a); [apply IH|].
  destruct (DLContext_eqb c (ctx a)); [apply IH|].
  apply fail_named_Fatal.
Qed.

Lemma CheckCtx_from_defined c names arrays : forall i,
  (i + List.length arrays <= List.length names)%nat ->
  CheckCtx_from i c arrays names <> Undefined.
Proof.
  induction arrays as [|a rest IH]; intros i Hlen; cbn in *; [discriminate|].
  destruct (IsNullArray a); [apply IH; lia|].
  destruct (DLContext_eqb c (ctx a)); [apply IH; lia|].
  apply fail_named_defined. lia.
Qed.

Lemma CheckContiguous_from_Done names arrays : forall i,
  CheckContiguous_from i arrays names = Done tt <->
  forallb contiguous_ok arrays = true.
Proof.
  induction arrays as [|a rest IH]; intros i; cbn; [tauto|].
  unfold contiguous_ok at 1.
  destruct (IsNullArray a); cbn; [apply IH|].
  destruct (IsContiguous a); cbn; [apply IH|].
  split; [|discriminate]. intros H. now apply fail_named_not_Done in H.
Qed.

Lemma CheckContiguous_from_Fatal names arrays e : forall i,
  CheckContiguous_from i arrays names = Fatal e ->
  exists n, In n names /\ e = NotContiguous n.
Proof.
  induction arrays as [|a rest IH]; intros i; cbn; [discriminate|].
  destruct (IsNullArray a); [apply IH|].
  destruct (IsContiguous a); [apply IH|].
  apply fail_named_Fatal.
Qed.

Lemma CheckContiguous_from_defined names arrays : forall i,
  (i + List.length arrays <= List.length names)%nat ->
  CheckContiguous_from i arrays names <> Undefined.
Proof.
  induction arrays as [|a rest IH]; intros i Hlen; cbn in *; [discriminate|].
  destruct (IsNullArray a); [apply IH; lia|].
  destruct (IsContiguous a); [apply IH; lia|].
  apply fail_named_defined. lia.
Qed.

Lemma CheckShape_from_Fatal gdim uev_idx names arrays e : forall i,
  CheckShape_from i gdim uev_idx arrays names = Fatal e ->
  is_shape_error e = true.
Proof.
  induction arrays as [|a rest IH]; intros i; cbn; [discriminate|].
  destruct (IsNullArray a); [apply IH|].
  destruct (ndim a <? 2).
  { intros H. apply fail_named_Fatal in H as (n & _ & ->). reflexivity. }
  destruct (nth_error uev_idx i) as [j|]; [|discriminate].
  destruct (vec_at gdim j) as [g|]; [|discriminate].
  destruct (g =? to_uint64 (shape0 a)); [apply IH|].
  intros H. apply fail_named_Fatal in H as (n & _ & ->). reflexivity.
Qed.

(** A shape check that passes has accepted every operand: the operand at
    position [k] of the remaining arrays was compared with the count its
    role [uev_idx[i + k]] selects. *)
Lemma CheckShape_from_Done gdim uev_idx names arrays : forall i,
  CheckShape_from i gdim uev_idx arrays names = Done tt ->
  forall k a, nth_error arrays k = Some a ->
    exists j g, (IsNullArray a = false -> nth_error uev_idx (i + k) = Some j
                   /\ vec_at gdim j = Some g)
                /\ shape_ok g a = true.
Proof.
  induction arrays as [|a rest IH]; intros i Hdone k b Hk.
  - destruct k; discriminate.
  - cbn in Hdone. destruct k as [|k]; cbn in Hk.
    + injection Hk as <-. unfold shape_ok.
      destruct (IsNullArray a); [exists 0, 0; split; [discriminate|reflexivity]|].
      destruct (ndim a <? 2); [now apply fail_named_not_Done in Hdone|].
      destruct (nth_error uev_idx i) as [j|] eqn:Hj; [|discriminate].
      destruct (vec_at gdim j) as [g|] eqn:Hg; [|discriminate].
      destruct (g =? to_uint64 (shape0 a)) eqn:Heq;
        [|now apply fail_named_not_Done in Hdone].
      exists j, g. rewrite Nat.add_0_r, Heq. auto.
    + replace (i + S k)%nat with (S i + k)%nat by lia.
      destruct (IsNullArray a); [eapply IH; eassumption|].
      destruct (ndim a <? 2); [now apply fail_named_not_Done in Hdone|].
      destruct (nth_error uev_idx i) as [j|]; [|discriminate].
      destruct (vec_at gdim j) as [g|]; [|discriminate].
      destruct (g =? to_uint64 (shape0 a));
        [|now apply fail_named_not_Done in Hdone].
      eapply IH; eassumption.
Qed.

Lemma CheckShape_from_defined gdim uev_idx names arrays : forall i,
  (i + List.length arrays <= List.length names)%nat ->
  (forall k, (k < List.length arrays)%nat ->
     exists j, nth_error uev_idx (i + k) = Some j /\ vec_at gdim j <> None) ->
  CheckShape_from i gdim uev_idx arrays names <> Undefined.
Proof.
  induction arrays as [|a rest IH]; intros i Hlen Hidx; cbn in *; [discriminate|].
  assert (Hrest : CheckShape_from (S i) gdim uev_idx rest names <> Undefined).
  { apply IH; [lia|]. intros k Hk.
    replace (S i + k)%nat with (i + S k)%nat by lia. apply Hidx. lia. }
  destruct (IsNullArray a); [exact Hrest|].
  destruct (ndim a <? 2); [apply fail_named_defined; lia|].
  destruct (Hidx 0%nat ltac:(lia)) as (j & Hj & Hg).
  rewrite Nat.add_0_r in Hj. rewrite Hj.
  destruct (vec_at gdim j) as [g|]; [|congruence].
  destruct (g =? to_uint64 (shape0 a)); [exact Hrest|].
  apply fail_named_defined. lia.
Qed.

(** ** The dispatch functions

    A dispatch function either stops on a fatal error that is not one of the
    checker's, with the buffers as they were, or starts exactly one kernel. *)
Ltac dispatch_cases :=
  autounfold with kernel_unfold; cbn;
  repeat match goal with
         | |- context [match ?o with Some _ => _ | None => _ end] =>
             destruct o eqn:?; cbn
         | |- context [match ?f with kCOO => _ | kCSR => _ | kCSC => _ end] =>
             destruct f eqn:?; cbn
         | |- context [let (_, _) := ?p in _] => destruct p as [[|] ?] eqn:?; cbn
         end.

Ltac outcome_inv :=
  repeat match goal with
         | H : (_, _) = (_, _) |- _ => inversion H; clear H; subst
         | H : Some _ = Some _ |- _ => inversion H; clear H; subst
         end; cbn in *; try discriminate; try congruence.

Lemma SpMM_fatal op reduce graph ufeat efeat out out_aux w e w' :
  SpMM op reduce graph ufeat efeat out out_aux w = (Fatal e, w') ->
  is_validation_error e = false.
Proof. dispatch_cases; intros H; outcome_inv; reflexivity. Qed.

Lemma SDDMM_fatal op graph lhs rhs out lt rt w e w' :
  SDDMM op graph lhs rhs out lt rt w = (Fatal e, w') ->
  is_validation_error e = false.
Proof. dispatch_cases; intros H; outcome_inv; reflexivity. Qed.

Lemma SegmentReduceDispatch_fatal op feat offsets out arg w e w' :
  SegmentReduceDispatch op feat offsets out arg w = (Fatal e, w') ->
  is_validation_error e = false.
Proof. dispatch_cases; intros H; outcome_inv; reflexivity. Qed.

Lemma BackwardSegmentCmpDispatch_fatal feat arg out w e w' :
  BackwardSegmentCmpDispatch feat arg out w = (Fatal e, w') ->
  is_validation_error e = false.
Proof. dispatch_cases; intros H; outcome_inv; reflexivity. Qed.

(** ** The entry points *)

(** One check of an entry point: it passes, or the call ends there. *)
Ltac step_check :=
  rewrite bind_lift;
  match goal with
  | |- context [match ?o with Done _ => _ | Fatal _ => _ | Undefined => _ end] =>
      let Hc := fresh "Hcheck" in destruct o as [[]|?e|] eqn:Hc
  end.

(** C1. At each of the four entry points, a call that ends in a context,
    contiguity or shape error leaves the buffers and the record of requests
    and kernel starts exactly as they were; and whenever one of the checks of
    the entry point does not pass, the call ends there with that state
    untouched: the checks come before every kernel and write nothing. *)
Theorem validation_failure_leaves_world_unchanged :
  (forall graph op reduce U E V ArgU ArgE w e w',
      _CAPI_DGLKernelSpMM graph op reduce U E V ArgU ArgE w = (Fatal e, w') ->
      is_validation_error e = true -> w' = w)
  /\ (forall graph op lhs rhs out lt rt w e w',
      _CAPI_DGLKernelSDDMM graph op lhs rhs out lt rt w = (Fatal e, w') ->
      is_validation_error e = true -> w' = w)
  /\ (forall op feat offsets out arg w e w',
      _CAPI_DGLKernelSegmentReduce op feat offsets out arg w = (Fatal e, w') ->
      is_validation_error e = true -> w' = w)
  /\ (forall feat arg out w e w',
      _CAPI_DGLKernelBwdSegmentCmp feat arg out w = (Fatal e, w') ->
      is_validation_error e = true -> w' = w)
  /\ (forall graph op reduce U E V ArgU ArgE w,
      CheckCtx (GraphContext graph) [U; E; V; ArgU; ArgE] SpMM_names <> Done tt
      \/ CheckContiguous [U; E; V; ArgU; ArgE] SpMM_names <> Done tt
      \/ CheckShape
           [NumVertices graph (fst (FindEdge graph 0)); NumEdges graph 0;
            NumVertices graph (snd (FindEdge graph 0))]
           [0; 1; 2; 2; 2] [U; E; V; ArgU; ArgE] SpMM_names <> Done tt ->
      snd (_CAPI_DGLKernelSpMM graph op reduce U E V ArgU ArgE w) = w)
  /\ (forall graph op lhs rhs out lt rt w,
      CheckCtx (GraphContext graph) [lhs; rhs; out]
        ["lhs"; "rhs"; "out"]%string <> Done tt
      \/ CheckContiguous [lhs; rhs; out] ["lhs"; "rhs"; "out"]%string
         <> Done tt
      \/ CheckShape
           [NumVertices graph (fst (FindEdge graph 0)); NumEdges graph 0;
            NumVertices graph (snd (FindEdge graph 0))]
           [lt; rt; 1] [lhs; rhs; out] ["U_data"; "E_data"; "V_data"]%string
         <> Done tt ->
      snd (_CAPI_DGLKernelSDDMM graph op lhs rhs out lt rt w) = w)
  /\ (forall op feat offsets out arg w,
      CheckCtx (ctx feat) [feat; offsets; out]
        ["feat"; "offsets"; "out"]%string <> Done tt
      \/ CheckContiguous [feat; offsets; out]
           ["feat"; "offsets"; "out"]%string <> Done tt ->
      snd (_CAPI_DGLKernelSegmentReduce op feat offsets out arg w) = w)
  /\ (forall feat arg out w,
      CheckCtx (ctx feat) [feat; arg; out] ["feat"; "arg"; "out"]%string
      <> Done tt
      \/ CheckContiguous [feat; arg; out] ["feat"; "arg"; "out"]%string
         <> Done tt ->
      snd (_CAPI_DGLKernelBwdSegmentCmp feat arg out w) = w).
Proof.
  repeat apply conj.
  - intros until w'. unfold _CAPI_DGLKernelSpMM.
    do 4 (step_check; [|intros H; now inversion H|discriminate]).
    intros H Hv. apply SpMM_fatal in H. congruence.
  - intros until w'. unfold _CAPI_DGLKernelSDDMM.
    do 4 (step_check; [|intros H; now inversion H|discriminate]).
    intros H Hv. apply SDDMM_fatal in H. congruence.
  - intros until w'. unfold _CAPI_DGLKernelSegmentReduce.
    do 2 (step_check; [|intros H; now inversion H|discriminate]).
    intros H Hv. apply SegmentReduceDispatch_fatal in H. congruence.
  - intros until w'. unfold _CAPI_DGLKernelBwdSegmentCmp.
    do 2 (step_check; [|intros H; now inversion H|discriminate]).
    intros H Hv. apply BackwardSegmentCmpDispatch_fatal in H. congruence.
  - intros until w. unfold _CAPI_DGLKernelSpMM. cbv zeta.
    do 4 (step_check; [|reflexivity|reflexivity]).
    intros [H|[H|H]]; congruence.
  - intros until w. unfold _CAPI_DGLKernelSDDMM. cbv zeta.
    do 4 (step_check; [|reflexivity|reflexivity]).
    intros [H|[H|H]]; congruence.
  - intros until w. unfold _CAPI_DGLKernelSegmentReduce.
    do 2 (step_check; [|reflexivity|reflexivity]).
    intros [H|H]; congruence.
  - intros until w. unfold _CAPI_DGLKernelBwdSegmentCmp.
    do 2 (step_check; [|reflexivity|reflexivity]).
    intros [H|H]; congruence.
Qed.

(** *** Shape checks *)

Lemma to_uint64_small z : 0 <= z < 2 ^ 63 -> to_uint64 z = z.
Proof. intros Hz. unfold to_uint64. apply Z.mod_small. lia. Qed.

Lemma bad_shape_not_ok count a :
  IsNullArray a = false ->
  0 <= shape0 a < 2 ^ 63 ->
  ndim a < 2 \/ shape0 a <> count ->
  shape_ok count a = false.
Proof.
  intros Hnull Hrange Hbad. unfold shape_ok. rewrite Hnull. cbn.
  destruct (ndim a <? 2) eqn:Hnd; cbn; [reflexivity|].
  apply Z.ltb_ge in Hnd. apply Z.eqb_neq.
  rewrite to_uint64_small by assumption. lia.
Qed.

Lemma vec_at_target (a b c target : Z) :
  0 <= target <= 2 ->
  vec_at [a; b; c] target
  = Some (if target =? 0 then a else if target =? 1 then b else c).
Proof.
  intros Ht. assert (target = 0 \/ target = 1 \/ target = 2) as [->|[->| ->]]
    by lia; reflexivity.
Qed.

(** The operand at position [k], compared with the count [g] of its role and
    not accepted, makes the whole check fail with a shape error. *)
Lemma CheckShape_rejects gdim uev_idx names arrays k a j g :
  (List.length arrays <= List.length names)%nat ->
  (forall i, (i < List.length arrays)%nat ->
     exists j', nth_error uev_idx i = Some j' /\ vec_at gdim j' <> None) ->
  nth_error arrays k = Some a ->
  nth_error uev_idx k = Some j ->
  vec_at gdim j = Some g ->
  IsNullArray a = false ->
  shape_ok g a = false ->
  exists e, CheckShape gdim uev_idx arrays names = Fatal e
            /\ is_shape_error e = true.
Proof.
  intros Hlen Hidx Hk Hj Hg Hnull Hbad. unfold CheckShape.
  destruct (CheckShape_from 0 gdim uev_idx arrays names) as [[]|e|] eqn:Hrun.
  - destruct (CheckShape_from_Done _ _ _ _ _ Hrun k a Hk) as (j' & g' & Hjg & Hok).
    destruct (Hjg Hnull) as [Hj' Hg']. cbn in Hj'. congruence.
  - exists e. split; [reflexivity|]. eapply CheckShape_from_Fatal; eassumption.
  - exfalso. eapply CheckShape_from_defined; [| |exact Hrun]; cbn; assumption.
Qed.

Ltac in_range_idx :=
  let i := fresh "i" in
  let Hi := fresh "Hi" in
  intros i Hi; cbn in Hi;
  repeat (destruct i as [|i];
          [cbn; eexists; split; [reflexivity|];
           first [discriminate | rewrite vec_at_target by assumption; discriminate]
          |]);
  lia.

(** The part of an entry point before its shape check: a failing check ends
    the call with its own error and the state as it was. *)
Ltac earlier_check :=
  step_check;
  [| eexists; split; [reflexivity|]; intros; congruence
   | exfalso;
     first [ eapply CheckCtx_from_defined; [|eassumption]; cbn; lia
           | eapply CheckContiguous_from_defined; [|eassumption]; cbn; lia
           | unfold CheckEdgeTypes in *;
             match goal with
             | H : (if ?b then _ else _) = Undefined |- _ =>
                 destruct b; discriminate
             end ] ].

(** C2. At the SpMM and SDDMM entry points, a non-null operand with fewer than
    two dimensions, or whose leading dimension is not the count of its role,
    makes the shape check fail with a shape error: U against the source
    vertex count, E against the edge count, out, ArgU and ArgE against the
    destination vertex count; lhs and rhs against the count their target
    selects and out against the edge count.  The call then ends in a fatal
    error with nothing written, and that error is the shape error unless a
    check placed before the shape check has already ended the call. *)
Theorem shape_check_rejects_bad_operand :
  (forall graph op reduce U E V ArgU ArgE w t count,
      In (t, count) (SpMM_operands graph U E V ArgU ArgE) ->
      IsNullArray t = false ->
      0 <= shape0 t < 2 ^ 63 ->
      ndim t < 2 \/ shape0 t <> count ->
      (exists e,
          CheckShape
            [NumVertices graph (fst (FindEdge graph 0)); NumEdges graph 0;
             NumVertices graph (snd (FindEdge graph 0))]
            [0; 1; 2; 2; 2] [U; E; V; ArgU; ArgE] SpMM_names = Fatal e
          /\ is_shape_error e = true)
      /\ exists e,
          _CAPI_DGLKernelSpMM graph op reduce U E V ArgU ArgE w = (Fatal e, w)
          /\ (CheckCtx (GraphContext graph) [U; E; V; ArgU; ArgE] SpMM_names
               = Done tt ->
              CheckContiguous [U; E; V; ArgU; ArgE] SpMM_names = Done tt ->
              CheckEdgeTypes graph = Done tt ->
              is_shape_error e = true))
  /\ (forall graph op lhs rhs out lhs_target rhs_target w t count,
      0 <= lhs_target <= 2 ->
      0 <= rhs_target <= 2 ->
      In (t, count) (SDDMM_operands graph lhs rhs out lhs_target rhs_target) ->
      IsNullArray t = false ->
      0 <= shape0 t < 2 ^ 63 ->
      ndim t < 2 \/ shape0 t <> count ->
      (exists e,
          CheckShape
            [NumVertices graph (fst (FindEdge graph 0)); NumEdges graph 0;
             NumVertices graph (snd (FindEdge graph 0))]
            [lhs_target; rhs_target; 1] [lhs; rhs; out]
            ["U_data"; "E_data"; "V_data"]%string = Fatal e
          /\ is_shape_error e = true)
      /\ exists e,
          _CAPI_DGLKernelSDDMM graph op lhs rhs out lhs_target rhs_target w
          = (Fatal e, w)
          /\ (CheckCtx (GraphContext graph) [lhs; rhs; out]
                ["lhs"; "rhs"; "out"]%string = Done tt ->
              CheckContiguous [lhs; rhs; out] ["lhs"; "rhs"; "out"]%string
              = Done tt ->
              CheckEdgeTypes graph = Done tt ->
              is_shape_error e = true)).
Proof.
  split.
  - intros graph op reduce U E V ArgU ArgE w t count Hin Hnull Hrange Hbad.
    pose proof (bad_shape_not_ok count t Hnull Hrange Hbad) as Hnot.
    assert (Hshape : exists e,
      CheckShape
        [NumVertices graph (fst (FindEdge graph 0)); NumEdges graph 0;
         NumVertices graph (snd (FindEdge graph 0))]
        [0; 1; 2; 2; 2] [U; E; V; ArgU; ArgE] SpMM_names = Fatal e
      /\ is_shape_error e = true).
    { unfold SpMM_operands in Hin. cbn in Hin.
      destruct Hin as [Heq|[Heq|[Heq|[Heq|[Heq|[]]]]]];
        injection Heq as <- <-;
        [ eapply (CheckShape_rejects _ _ _ _ 0%nat)
        | eapply (CheckShape_rejects _ _ _ _ 1%nat)
        | eapply (CheckShape_rejects _ _ _ _ 2%nat)
        | eapply (CheckShape_rejects _ _ _ _ 3%nat)
        | eapply (CheckShape_rejects _ _ _ _ 4%nat) ];
        try reflexivity; try eassumption; try (cbn; lia); in_range_idx. }
    split; [exact Hshape|].
    destruct Hshape as (e & He & Hkind).
    unfold _CAPI_DGLKernelSpMM.
    do 3 earlier_check.
    cbv zeta. rewrite bind_lift, He. eauto.
  - intros graph op lhs rhs out lt rt w t count Hlt Hrt Hin Hnull Hrange Hbad.
    pose proof (bad_shape_not_ok count t Hnull Hrange Hbad) as Hnot.
    assert (Hshape : exists e,
      CheckShape
        [NumVertices graph (fst (FindEdge graph 0)); NumEdges graph 0;
         NumVertices graph (snd (FindEdge graph 0))]
        [lt; rt; 1] [lhs; rhs; out] ["U_data"; "E_data"; "V_data"]%string
      = Fatal e /\ is_shape_error e = true).
    { unfold SDDMM_operands, count_of_target in Hin. cbn in Hin.
      destruct Hin as [Heq|[Heq|[Heq|[]]]];
        injection Heq as <- <-;
        [ eapply (CheckShape_rejects _ _ _ _ 0%nat)
        | eapply (CheckShape_rejects _ _ _ _ 1%nat)
        | eapply (CheckShape_rejects _ _ _ _ 2%nat) ];
        try reflexivity; try eassumption; try (cbn; lia);
        try (apply vec_at_target; assumption); in_range_idx. }
    split; [exact Hshape|].
    destruct Hshape as (e & He & Hkind).
    unfold _CAPI_DGLKernelSDDMM.
    do 3 earlier_check.
    cbv zeta. rewrite bind_lift, He. eauto.
Qed.

(** *** Format selection and dispatch *)

Lemma starts_none_inv (l ks : list (KernelCall BcastOff)) :
  l = l ++ ks -> ks = [].
Proof.
  intros H. rewrite <- (app_nil_r l) in H at 1.
  apply app_inv_head in H. congruence.
Qed.

Lemma starts_one_inv (l ks : list (KernelCall BcastOff)) k :
  l ++ [k] = l ++ ks -> ks = [k].
Proof. intros H. apply app_inv_head in H. congruence. Qed.

(** Brings a run of a dispatch function to one of its cases, with the
    kernels started read off the trace. *)
Ltac dispatch_run :=
  unfold starts; dispatch_cases;
  rewrite ?kernel_runs_app, ?format_requests_app; cbn;
  rewrite ?app_nil_r.

Ltac starts_inv :=
  repeat match goal with
         | H : ?l = ?l ++ _ |- _ => apply starts_none_inv in H; subst
         | H : ?l ++ [_] = ?l ++ _ |- _ => apply starts_one_inv in H; subst
         | H : In _ [] |- _ => destruct H
         | H : In _ [_] |- _ => destruct H as [<-|[]]
         end.

(** C3. SpMM starts a kernel only when the format the graph selects is CSC or
    COO, and SDDMM only when it is CSR or COO, whether called directly or
    through its entry point.  With the remaining format selected (CSR for
    SpMM, CSC for SDDMM) the call ends in a fatal error, no kernel is started
    and the buffers are as they were; once the broadcast and the dispatch key
    resolve, that error is the unsupported-format one. *)
Theorem unsupported_format_is_fatal :
  (forall op reduce graph ufeat efeat out out_aux w ks,
      starts (SpMM op reduce graph ufeat efeat out out_aux) w ks ->
      ks <> [] ->
      SelectFormat graph 0 csc_code = kCSC
      \/ SelectFormat graph 0 csc_code = kCOO)
  /\ (forall op reduce graph ufeat efeat out out_aux w,
      SelectFormat graph 0 csc_code = kCSR ->
      exists e,
        fst (SpMM op reduce graph ufeat efeat out out_aux w) = Fatal e
        /\ buffers (snd (SpMM op reduce graph ufeat efeat out out_aux w))
           = buffers w
        /\ starts (SpMM op reduce graph ufeat efeat out out_aux) w []
        /\ (CalcBcastOff op ufeat efeat <> None ->
            dispatch_key (device_type (GraphContext graph)) (DataType graph)
              (dtype out) <> None ->
            e = UnsupportedFormat "SpMM only supports CSC and COO foramts"))
  /\ (forall op graph lhs rhs out lhs_target rhs_target w ks,
      starts (SDDMM op graph lhs rhs out lhs_target rhs_target) w ks ->
      ks <> [] ->
      SelectFormat graph 0 coo_code = kCSR
      \/ SelectFormat graph 0 coo_code = kCOO)
  /\ (forall op graph lhs rhs out lhs_target rhs_target w,
      SelectFormat graph 0 coo_code = kCSC ->
      exists e,
        fst (SDDMM op graph lhs rhs out lhs_target rhs_target w) = Fatal e
        /\ buffers (snd (SDDMM op graph lhs rhs out lhs_target rhs_target w))
           = buffers w
        /\ starts (SDDMM op graph lhs rhs out lhs_target rhs_target) w []
        /\ (CalcBcastOff op lhs rhs <> None ->
            dispatch_key (device_type (GraphContext graph)) (DataType graph)
              (dtype out) <> None ->
            e = UnsupportedFormat "SDDMM only supports CSR and COO foramts"))
  /\ (forall graph op reduce U E V ArgU ArgE w ks,
      starts (_CAPI_DGLKernelSpMM graph op reduce U E V ArgU ArgE) w ks ->
      ks <> [] ->
      SelectFormat graph 0 csc_code = kCSC
      \/ SelectFormat graph 0 csc_code = kCOO)
  /\ (forall graph op lhs rhs out lhs_target rhs_target w ks,
      starts (_CAPI_DGLKernelSDDMM graph op lhs rhs out lhs_target rhs_target)
        w ks ->
      ks <> [] ->
      SelectFormat graph 0 coo_code = kCSR
      \/ SelectFormat graph 0 coo_code = kCOO).
Proof.
  repeat apply conj.
  - intros op reduce graph ufeat efeat out out_aux w ks.
    dispatch_run; intros Hs Hks; starts_inv; auto; congruence.
  - intros op reduce graph ufeat efeat out out_aux w Hfmt.
    unfold dispatch_key. dispatch_run; try congruence;
      eexists; repeat split; intros; congruence.
  - intros op graph lhs rhs out lt rt w ks.
    dispatch_run; intros Hs Hks; starts_inv; auto; congruence.
  - intros op graph lhs rhs out lt rt w Hfmt.
    unfold dispatch_key. dispatch_run; try congruence;
      eexists; repeat split; intros; congruence.
  - intros graph op reduce U E V ArgU ArgE w ks.
    unfold starts, _CAPI_DGLKernelSpMM. cbv zeta.
    do 4 (step_check;
          [|cbn; intros Hs Hks; starts_inv; congruence
           |cbn; intros Hs Hks; starts_inv; congruence]).
    dispatch_run; intros Hs Hks; starts_inv; auto; congruence.
  - intros graph op lhs rhs out lt rt w ks.
    unfold starts, _CAPI_DGLKernelSDDMM. cbv zeta.
    do 4 (step_check;
          [|cbn; intros Hs Hks; starts_inv; congruence
           |cbn; intros Hs Hks; starts_inv; congruence]).
    dispatch_run; intros Hs Hks; starts_inv; auto; congruence.
Qed.

(** C9. Whatever the operator and the reduce arguments, SpMM and
    GetEdgeMapping make exactly one format request, for edge type 0 with the
    CSC code, and SDDMM makes exactly one, with the COO code. *)
Theorem preferred_format_is_fixed :
  (forall op reduce graph ufeat efeat out out_aux w,
      format_requests
        (trace (snd (SpMM op reduce graph ufeat efeat out out_aux w)))
      = format_requests (trace w) ++ [(0, csc_code)])
  /\ (forall op graph lhs rhs out lhs_target rhs_target w,
      format_requests
        (trace (snd (SDDMM op graph lhs rhs out lhs_target rhs_target w)))
      = format_requests (trace w) ++ [(0, coo_code)])
  /\ (forall graph w,
      format_requests (trace (snd (GetEdgeMapping graph w)))
      = format_requests (trace w) ++ [(0, csc_code)]).
Proof.
  repeat split; intros; dispatch_run; reflexivity.
Qed.

(** C4, as the code has it.  The kernel a dispatch function starts is
    instantiated at the key the three switches resolve, and the three values
    switched on are: for SpMM and SDDMM the graph's device kind, the graph's
    index dtype and the dtype of the output tensor; for SegmentReduce the
    device kind of feat, the dtype of offsets and the dtype of feat; for
    BackwardSegmentCmp the device kind of feat, the dtype of arg and the dtype
    of feat.  When the key does not resolve, the call ends in a fatal error
    with no kernel started and the buffers as they were; the error is the
    unsupported-dispatch one (for SpMM and SDDMM, provided the broadcast
    resolved before the switches were reached). *)
Theorem dispatch_key_sources :
  (forall op reduce graph ufeat efeat out out_aux w,
      let run := SpMM op reduce graph ufeat efeat out out_aux in
      let key := dispatch_key (device_type (GraphContext graph))
                   (DataType graph) (dtype out) in
      (forall ks k, starts run w ks -> In k ks -> key = Some (kernel_key k))
      /\ (key = None ->
          exists e, fst (run w) = Fatal e
                    /\ buffers (snd (run w)) = buffers w
                    /\ starts run w []
                    /\ (CalcBcastOff op ufeat efeat <> None ->
                        is_dispatch_error e = true)))
  /\ (forall op graph lhs rhs out lhs_target rhs_target w,
      let run := SDDMM op graph lhs rhs out lhs_target rhs_target in
      let key := dispatch_key (device_type (GraphContext graph))
                   (DataType graph) (dtype out) in
      (forall ks k, starts run w ks -> In k ks -> key = Some (kernel_key k))
      /\ (key = None ->
          exists e, fst (run w) = Fatal e
                    /\ buffers (snd (run w)) = buffers w
                    /\ starts run w []
                    /\ (CalcBcastOff op lhs rhs <> None ->
                        is_dispatch_error e = true)))
  /\ (forall op feat offsets out arg w,
      let run := SegmentReduceDispatch op feat offsets out arg in
      let key := dispatch_key (device_type (ctx feat)) (dtype offsets)
                   (dtype feat) in
      (forall ks k, starts run w ks -> In k ks -> key = Some (kernel_key k))
      /\ (key = None ->
          exists e, fst (run w) = Fatal e
                    /\ buffers (snd (run w)) = buffers w
                    /\ starts run w []
                    /\ is_dispatch_error e = true))
  /\ (forall feat arg out w,
      let run := BackwardSegmentCmpDispatch feat arg out in
      let key := dispatch_key (device_type (ctx feat)) (dtype arg)
                   (dtype feat) in
      (forall ks k, starts run w ks -> In k ks -> key = Some (kernel_key k))
      /\ (key = None ->
          exists e, fst (run w) = Fatal e
                    /\ buffers (snd (run w)) = buffers w
                    /\ starts run w []
                    /\ is_dispatch_error e = true)).
Proof.
  repeat apply conj; intros until w; cbv zeta; unfold dispatch_key; split.
  all: try (intros ks k; dispatch_run; intros Hs Hin; starts_inv; reflexivity).
  all: dispatch_run; intros Hkey; try discriminate;
    eexists; repeat split; intros; congruence.
Qed.

(** C7, as the code has it.  GetEdgeMapping asks the graph for a format with
    the CSC code; when the answer is CSC it returns the data array of the
    graph's CSC matrix, and for every other answer it returns the null array,
    whatever mapping the selected format holds.  It writes nothing. *)
Theorem edge_mapping_is_csc_data_or_null :
  forall graph w,
    fst (GetEdgeMapping graph w)
    = Done (match SelectFormat graph 0 csc_code with
            | kCSC => csr_data (GetCSCMatrix graph 0)
            | kCSR | kCOO => NullArray
            end)
    /\ buffers (snd (GetEdgeMapping graph w)) = buffers w
    /\ starts (GetEdgeMapping graph) w [].
Proof.
  intros graph w. dispatch_run; repeat split; reflexivity.
Qed.

(** C8. At the SpMM and SDDMM entry points a graph whose number of edge types
    is not one ends the call in a fatal error before the shape check and the
    dispatch: nothing is requested of the graph, no kernel is started and the
    buffers are as they were.  The error is the edge-type one unless the
    context or the contiguity check has already ended the call. *)
Theorem single_edge_type_required :
  (forall graph op reduce U E V ArgU ArgE w,
      NumEdgeTypes graph <> 1 ->
      exists e,
        _CAPI_DGLKernelSpMM graph op reduce U E V ArgU ArgE w = (Fatal e, w)
        /\ (CheckCtx (GraphContext graph) [U; E; V; ArgU; ArgE] SpMM_names
             = Done tt ->
            CheckContiguous [U; E; V; ArgU; ArgE] SpMM_names = Done tt ->
            e = EdgeTypeCount (NumEdgeTypes graph)))
  /\ (forall graph op lhs rhs out lhs_target rhs_target w,
      NumEdgeTypes graph <> 1 ->
      exists e,
        _CAPI_DGLKernelSDDMM graph op lhs rhs out lhs_target rhs_target w
        = (Fatal e, w)
        /\ (CheckCtx (GraphContext graph) [lhs; rhs; out]
              ["lhs"; "rhs"; "out"]%string = Done tt ->
            CheckContiguous [lhs; rhs; out] ["lhs"; "rhs"; "out"]%string
            = Done tt ->
            e = EdgeTypeCount (NumEdgeTypes graph))).
Proof.
  split; intros until w; intros Hn.
  - unfold _CAPI_DGLKernelSpMM. do 2 earlier_check.
    rewrite bind_lift. unfold CheckEdgeTypes.
    destruct (Z.eqb_spec (NumEdgeTypes graph) 1); [contradiction|].
    eexists; split; reflexivity.
  - unfold _CAPI_DGLKernelSDDMM. do 2 earlier_check.
    rewrite bind_lift. unfold CheckEdgeTypes.
    destruct (Z.eqb_spec (NumEdgeTypes graph) 1); [contradiction|].
    eexists; split; reflexivity.
Qed.

Notation "m ;; k" := (bind m (fun _ => k))
  (at level 61, right associativity).

(** C5, as the code has it.  The SpMM entry point ties no requirement on ArgU
    and ArgE to the reduce operator.  For every reduce operator, max and min
    included, null ArgU and ArgE are passed over by the context, contiguity
    and shape checks: the call is validated on U, E and out alone and then
    dispatched, the two null tensors being handed on to SpMM. *)
Theorem null_aux_accepted_for_every_reduce :
  forall graph op reduce U E V ArgU ArgE w,
    IsNullArray ArgU = true ->
    IsNullArray ArgE = true ->
    _CAPI_DGLKernelSpMM graph op reduce U E V ArgU ArgE w
    = (lift (CheckCtx (GraphContext graph) [U; E; V]
               ["U_data"; "E_data"; "out"]%string) ;;
       lift (CheckContiguous [U; E; V] ["U_data"; "E_data"; "out"]%string) ;;
       lift (CheckEdgeTypes graph) ;;
       lift (CheckShape
               [NumVertices graph (fst (FindEdge graph 0)); NumEdges graph 0;
                NumVertices graph (snd (FindEdge graph 0))]
               [0; 1; 2] [U; E; V] ["U_data"; "E_data"; "out"]%string) ;;
       SpMM op reduce graph U E V [ArgU; ArgE]) w.
Proof.
  intros graph op reduce U E V ArgU ArgE w HU HE.
  unfold _CAPI_DGLKernelSpMM. cbv zeta.
  assert (Hctx : CheckCtx (GraphContext graph) [U; E; V; ArgU; ArgE] SpMM_names
                 = CheckCtx (GraphContext graph) [U; E; V]
                     ["U_data"; "E_data"; "out"]%string).
  { unfold CheckCtx. cbn. rewrite HU, HE. reflexivity. }
  assert (Hcontig : CheckContiguous [U; E; V; ArgU; ArgE] SpMM_names
                    = CheckContiguous [U; E; V]
                        ["U_data"; "E_data"; "out"]%string).
  { unfold CheckContiguous. cbn. rewrite HU, HE. reflexivity. }
  assert (Hshape : forall gdim,
             CheckShape gdim [0; 1; 2; 2; 2] [U; E; V; ArgU; ArgE] SpMM_names
             = CheckShape gdim [0; 1; 2] [U; E; V]
                 ["U_data"; "E_data"; "out"]%string).
  { intros gdim. unfold CheckShape. cbn. rewrite HU, HE. reflexivity. }
  rewrite Hctx, Hcontig, Hshape. reflexivity.
Qed.

(** C10, as the code has it.  The BackwardSegmentCmp entry point checks the
    device context and the contiguity of feat, arg and out and nothing about
    their shapes; the key is switched on the device kind of feat, the dtype
    of arg and the dtype of feat.  For feat, arg and out that pass the two
    checks the call is the kernel started at that key when the key resolves,
    and ends in the unsupported-dispatch error, with nothing started or
    written, when it does not. *)
Theorem bwd_segment_cmp_reaches_kernel_when_key_resolves :
  forall feat arg out w,
    CheckCtx (ctx feat) [feat; arg; out] ["feat"; "arg"; "out"]%string
    = Done tt ->
    CheckContiguous [feat; arg; out] ["feat"; "arg"; "out"]%string
    = Done tt ->
    (forall XPU IdT fbits,
        dispatch_key (device_type (ctx feat)) (dtype arg) (dtype feat)
        = Some (XPU, IdT, fbits) ->
        _CAPI_DGLKernelBwdSegmentCmp feat arg out w
        = invoke (BackwardSegmentCmp XPU IdT fbits feat arg out) w)
    /\ (dispatch_key (device_type (ctx feat)) (dtype arg) (dtype feat) = None ->
        exists e, _CAPI_DGLKernelBwdSegmentCmp feat arg out w = (Fatal e, w)
                  /\ is_dispatch_error e = true).
Proof.
  intros feat arg out w Hctx Hcontig.
  unfold _CAPI_DGLKernelBwdSegmentCmp.
  rewrite bind_lift, Hctx, bind_lift, Hcontig.
  unfold dispatch_key. split.
  - intros XPU IdT fbits. dispatch_cases; intros Hkey; outcome_inv; reflexivity.
  - dispatch_cases; intros Hkey; try discriminate;
      eexists; split; reflexivity.
Qed.

End KernelFacts.

(** * The properties at concrete calls *)
Section Runs.

Import SpecModel.

#[local] Existing Instance model.

Lemma validation_failure_leaves_world_unchanged_witness :
  snd (_CAPI_DGLKernelSpMM (graph_with kCSC 1) "mul" "sum"
         U_gpu E_ok V_ok null_array null_array world0) = world0
  /\ snd (_CAPI_DGLKernelSDDMM (graph_with kCOO 1) "dot"
            U_short V_ok out_edges 0 2 world0) = world0
  /\ snd (_CAPI_DGLKernelSegmentReduce "sum"
            feat32 offsets64 (tensor cpu0 float32 [2; 8] false 12) null_array
            world0) = world0
  /\ snd (_CAPI_DGLKernelBwdSegmentCmp feat32 arg_ok
            (tensor gpu0 float32 [6; 8] true 14) world0) = world0.
Proof.
  destruct (validation_failure_leaves_world_unchanged (Ext := model))
    as (HSpMM & HSDDMM & HSeg & HBwd & _).
  repeat apply conj.
  - apply (HSpMM (graph_with kCSC 1) "mul"%string "sum"%string
             U_gpu E_ok V_ok null_array null_array world0
             (ContextMismatch "U_data")); reflexivity.
  - apply (HSDDMM (graph_with kCOO 1) "dot"%string
             U_short V_ok out_edges 0 2 world0
             (ShapeMismatch "U_data" (LeadingDim 3 2))); reflexivity.
  - apply (HSeg "sum"%string feat32 offsets64
             (tensor cpu0 float32 [2; 8] false 12) null_array world0
             (NotContiguous "out")); reflexivity.
  - apply (HBwd feat32 arg_ok (tensor gpu0 float32 [6; 8] true 14) world0
             (ContextMismatch "out")); reflexivity.
Defined.

Lemma shape_check_rejects_bad_operand_witness :
  (IsNullArray U_flat = false /\ ndim U_flat < 2
   /\ exists e,
       _CAPI_DGLKernelSpMM (graph_with kCSC 1) "mul" "sum"
         U_flat E_ok V_ok null_array null_array world0 = (Fatal e, world0)
       /\ is_shape_error e = true)
  /\ (IsNullArray U_short = false /\ shape0 U_short <> 3
      /\ exists e,
          _CAPI_DGLKernelSDDMM (graph_with kCOO 1) "dot"
            U_short V_ok out_edges 0 2 world0 = (Fatal e, world0)
          /\ is_shape_error e = true).
Proof.
  destruct (shape_check_rejects_bad_operand (Ext := model))
    as (HSpMM & HSDDMM).
  split.
  - split; [reflexivity|]. split; [reflexivity|].
    destruct (HSpMM (graph_with kCSC 1) "mul"%string "sum"%string
                U_flat E_ok V_ok null_array null_array world0 U_flat 3)
      as (_ & e & Hrun & Hkind).
    + cbn. left. reflexivity.
    + reflexivity.
    + cbn. lia.
    + left. reflexivity.
    + exists e. split; [exact Hrun|]. apply Hkind; reflexivity.
  - split; [reflexivity|]. split; [cbn; lia|].
    destruct (HSDDMM (graph_with kCOO 1) "dot"%string
                U_short V_ok out_edges 0 2 world0 U_short 3)
      as (_ & e & Hrun & Hkind).
    + lia.
    + lia.
    + cbn. left. reflexivity.
    + reflexivity.
    + cbn. lia.
    + right. cbn. lia.
    + exists e. split; [exact Hrun|]. apply Hkind; reflexivity.
Defined.

Lemma unsupported_format_is_fatal_witness :
  (SelectFormat (graph_with kCOO 1) 0 csc_code = kCSC
   \/ SelectFormat (graph_with kCOO 1) 0 csc_code = kCOO)
  /\ (exists e,
        fst (SpMM "mul" "sum" (graph_with kCSR 1) U_ok E_ok V_ok
               [null_array; null_array] world0) = Fatal e
        /\ e = UnsupportedFormat "SpMM only supports CSC and COO foramts")
  /\ (SelectFormat (graph_with kCSR 1) 0 coo_code = kCSR
      \/ SelectFormat (graph_with kCSR 1) 0 coo_code = kCOO)
  /\ (exists e,
        fst (SDDMM "dot" (graph_with kCSC 1) U_ok V_ok out_edges 0 2 world0)
        = Fatal e
        /\ e = UnsupportedFormat "SDDMM only supports CSR and COO foramts").
Proof.
  destruct (unsupported_format_is_fatal (Ext := model))
    as (HSpMM & HSpMMcsr & HSDDMM & HSDDMMcsc & _).
  repeat apply conj.
  - apply (HSpMM "mul"%string "sum"%string (graph_with kCOO 1) U_ok E_ok V_ok
             [null_array; null_array] world0
             [SpMMCoo kDLCPU int64_t 32 "mul" "sum" [8] some_coo U_ok E_ok V_ok
                [null_array; null_array]]).
    + reflexivity.
    + discriminate.
  - destruct (HSpMMcsr "mul"%string "sum"%string (graph_with kCSR 1)
                U_ok E_ok V_ok [null_array; null_array] world0 eq_refl)
      as (e & Hrun & _ & _ & Hkind).
    exists e. split; [exact Hrun|]. apply Hkind; discriminate.
  - apply (HSDDMM "dot"%string (graph_with kCSR 1) U_ok V_ok out_edges 0 2
             world0
             [SDDMMCsr kDLCPU int64_t 32 "dot" [8] (some_csr edge_permutation)
                U_ok V_ok out_edges 0 2]).
    + reflexivity.
    + discriminate.
  - destruct (HSDDMMcsc "dot"%string (graph_with kCSC 1)
                U_ok V_ok out_edges 0 2 world0 eq_refl)
      as (e & Hrun & _ & _ & Hkind).
    exists e. split; [exact Hrun|]. apply Hkind; discriminate.
Defined.

(** SegmentReduce on 32-bit float features with a 64-bit float output: the
    kernel is instantiated at 32 bits, the dtype of feat. *)
Lemma dispatch_key_sources_witness :
  dispatch_key (device_type (ctx feat32)) (dtype offsets64) (dtype feat32)
  = Some (kDLCPU, int64_t, 32)
  /\ (exists e,
        fst (BackwardSegmentCmpDispatch feat_int arg_ok grad_in world0)
        = Fatal e /\ is_dispatch_error e = true).
Proof.
  destruct (dispatch_key_sources (Ext := model))
    as (_ & _ & HSeg & HBwd).
  split.
  - destruct (HSeg "max"%string feat32 offsets64 out64 arg_ok world0)
      as (Hkey & _).
    apply (Hkey [SegmentReduce kDLCPU int64_t 32 "max"
                   feat32 offsets64 out64 arg_ok]
                (SegmentReduce kDLCPU int64_t 32 "max"
                   feat32 offsets64 out64 arg_ok)).
    + reflexivity.
    + left. reflexivity.
  - destruct (HBwd feat_int arg_ok grad_in world0) as (_ & Hnone).
    destruct (Hnone eq_refl) as (e & Hrun & _ & _ & Hkind).
    exists e. split; assumption.
Defined.

(** C4 fails as stated: SegmentReduce with 32-bit float features and a 64-bit
    float output starts the 32-bit kernel. *)
Lemma float_bits_from_output_fails : ~ float_bits_from_output.
Proof.
  intros Hclaim.
  specialize (Hclaim "max"%string feat32 offsets64 out64 arg_ok world0
                [SegmentReduce kDLCPU int64_t 32 "max"
                   feat32 offsets64 out64 arg_ok]
                (SegmentReduce kDLCPU int64_t 32 "max"
                   feat32 offsets64 out64 arg_ok)
                eq_refl (or_introl eq_refl)).
  vm_compute in Hclaim. discriminate.
Qed.

Lemma null_aux_accepted_for_every_reduce_witness :
  is_cmp_reduce "max" = true
  /\ IsNullArray null_array = true
  /\ _CAPI_DGLKernelSpMM (graph_with kCSC 1) "mul" "max"
       U_ok E_ok V_ok null_array null_array world0
     = invoke (SpMMCsr kDLCPU int64_t 32 "mul" "max" [8]
                 (some_csr edge_permutation) U_ok E_ok V_ok
                 [null_array; null_array])
         (mkWorld [] [SelectFormatRequest 0 csc_code]).
Proof.
  split; [reflexivity|]. split; [reflexivity|].
  rewrite (null_aux_accepted_for_every_reduce (Ext := model)
             (graph_with kCSC 1) "mul"%string "max"%string
             U_ok E_ok V_ok null_array null_array world0 eq_refl eq_refl).
  reflexivity.
Defined.

(** C5 fails as stated: a max reduce with both auxiliary tensors null passes
    every check and the CSC kernel is started. *)
Lemma aux_required_for_cmp_fails : ~ aux_required_for_cmp.
Proof.
  intros Hclaim.
  destruct (Hclaim (graph_with kCSC 1) "mul"%string "max"%string
              U_ok E_ok V_ok null_array null_array world0
              eq_refl (or_introl eq_refl)) as [[e Hrun] _].
  vm_compute in Hrun. discriminate.
Qed.

(** C6 at a failing input: SegmentReduce with a non-null arg that is not
    contiguous.  The call completes, the kernel is started on that arg and the
    buffers of out and arg are written; the contiguity law does not hold at
    this entry point. *)
Theorem SegmentReduce_runs_with_strided_arg :
  IsNullArray arg_strided = false
  /\ IsContiguous arg_strided = false
  /\ _CAPI_DGLKernelSegmentReduce "max" feat32 offsets64 out32 arg_strided
       world0
     = (Done tt,
        mkWorld [data out32; data arg_strided]
          [KernelRun (SegmentReduce kDLCPU int64_t 32 "max"
                        feat32 offsets64 out32 arg_strided)])
  /\ ~ noncontiguous_operand_rejected.
Proof.
  repeat apply conj; try reflexivity.
  intros Hlaw.
  destruct (Hlaw "max"%string feat32 offsets64 out32 arg_strided world0
              arg_strided) as (e & Hrun & _).
  - cbn. auto.
  - reflexivity.
  - reflexivity.
  - vm_compute in Hrun. discriminate.
Qed.

(** C7 fails as stated: a graph that selects CSR and whose CSR matrix holds
    an edge permutation gets the null array. *)
Lemma returns_mapping_of_selected_format_fails :
  ~ returns_mapping_of_selected_format.
Proof.
  intros Hclaim.
  destruct (Hclaim (graph_with kCSR 1) world0 edge_permutation eq_refl)
    as (r & Hrun & Hnull & _).
  vm_compute in Hrun. injection Hrun as <-.
  vm_compute in Hnull. discriminate.
Qed.

Lemma single_edge_type_required_witness :
  (NumEdgeTypes (graph_with kCSC 2) <> 1
   /\ _CAPI_DGLKernelSpMM (graph_with kCSC 2) "mul" "sum"
        U_ok E_ok V_ok null_array null_array world0
      = (Fatal (EdgeTypeCount 2), world0))
  /\ (NumEdgeTypes (graph_with kCOO 0) <> 1
      /\ _CAPI_DGLKernelSDDMM (graph_with kCOO 0) "dot"
           U_ok V_ok out_edges 0 2 world0
         = (Fatal (EdgeTypeCount 0), world0)).
Proof.
  destruct (single_edge_type_required (Ext := model)) as (HSpMM & HSDDMM).
  split; (split; [discriminate|]).
  - destruct (HSpMM (graph_with kCSC 2) "mul"%string "sum"%string
                U_ok E_ok V_ok null_array null_array world0)
      as (e & Hrun & Hkind); [discriminate|].
    rewrite Hrun, (Hkind eq_refl eq_refl). reflexivity.
  - destruct (HSDDMM (graph_with kCOO 0) "dot"%string
                U_ok V_ok out_edges 0 2 world0)
      as (e & Hrun & Hkind); [discriminate|].
    rewrite Hrun, (Hkind eq_refl eq_refl). reflexivity.
Defined.

Lemma bwd_segment_cmp_reaches_kernel_when_key_resolves_witness :
  _CAPI_DGLKernelBwdSegmentCmp feat32 arg_ok grad_in world0
  = invoke (BackwardSegmentCmp kDLCPU int64_t 32 feat32 arg_ok grad_in) world0
  /\ exists e,
      _CAPI_DGLKernelBwdSegmentCmp feat_int arg_ok grad_in world0
      = (Fatal e, world0)
      /\ is_dispatch_error e = true.
Proof.
  split.
  - apply (bwd_segment_cmp_reaches_kernel_when_key_resolves (Ext := model)
             feat32 arg_ok grad_in world0 eq_refl eq_refl).
    reflexivity.
  - apply (bwd_segment_cmp_reaches_kernel_when_key_resolves (Ext := model)
             feat_int arg_ok grad_in world0 eq_refl eq_refl).
    reflexivity.
Defined.

(** C10 fails as stated: feat of an integer dtype passes the context and the
    contiguity check, and no kernel is started. *)
Lemma checked_reaches_kernel_fails : ~ checked_reaches_kernel.
Proof.
  intros Hclaim.
  destruct (Hclaim feat_int arg_ok grad_in world0 eq_refl eq_refl)
    as (k & Hstarts).
  vm_compute in Hstarts. discriminate.
Qed.

End Runs.

(** * Further properties of the checkers and of the entry points *)
Section CheckerFacts.

Context `{Ext : Externals}.

Lemma DLDeviceType_eqb_eq (x y : DLDeviceType) :
  DLDeviceType_eqb x y = true <-> x = y.
Proof.
  destruct x as [| |m], y as [| |n]; cbn; try (split; congruence).
  rewrite Z.eqb_eq. split; congruence.
Qed.

Lemma DLContext_eqb_eq (x y : DLContext) :
  DLContext_eqb x y = true <-> x = y.
Proof.
  destruct x as [dx ix], y as [dy iy]. unfold DLContext_eqb. cbn.
  rewrite andb_true_iff, DLDeviceType_eqb_eq, Z.eqb_eq.
  split; [intros [-> ->]; reflexivity | intros H; injection H; auto].
Qed.

(** Checking a list is checking a prefix that passes and then the rest, at
    the index where the prefix ends. *)
Lemma CheckCtx_from_app c names pre rest : forall i,
  CheckCtx_from i c pre names = Done tt ->
  CheckCtx_from i c (pre ++ rest) names
  = CheckCtx_from (i + List.length pre) c rest names.
Proof.
  induction pre as [|a pre IH]; intros i Hpre; cbn in *.
  - now rewrite Nat.add_0_r.
  - replace (i + S (List.length pre))%nat with (S i + List.length pre)%nat
      by lia.
    destruct (IsNullArray a); [now apply IH|].
    destruct (DLContext_eqb c (ctx a)); [now apply IH|].
    now apply fail_named_not_Done in Hpre.
Qed.

Lemma CheckContiguous_from_app names pre rest : forall i,
  CheckContiguous_from i pre names = Done tt ->
  CheckContiguous_from i (pre ++ rest) names
  = CheckContiguous_from (i + List.length pre) rest names.
Proof.
  induction pre as [|a pre IH]; intros i Hpre; cbn in *.
  - now rewrite Nat.add_0_r.
  - replace (i + S (List.length pre))%nat with (S i + List.length pre)%nat
      by lia.
    destruct (IsNullArray a); [now apply IH|].
    destruct (IsContiguous a); [now apply IH|].
    now apply fail_named_not_Done in Hpre.
Qed.

Lemma CheckShape_from_app gdim uev_idx names pre rest : forall i,
  CheckShape_from i gdim uev_idx pre names = Done tt ->
  CheckShape_from i gdim uev_idx (pre ++ rest) names
  = CheckShape_from (i + List.length pre) gdim uev_idx rest names.
Proof.
  induction pre as [|a pre IH]; intros i Hpre; cbn in *.
  - now rewrite Nat.add_0_r.
  - replace (i + S (List.length pre))%nat with (S i + List.length pre)%nat
      by lia.
    destruct (IsNullArray a); [now apply IH|].
    destruct (ndim a <? 2); [now apply fail_named_not_Done in Hpre|].
    destruct (nth_error uev_idx i) as [j|]; [|discriminate].
    destruct (vec_at gdim j) as [g|]; [|discriminate].
    destruct (g =? to_uint64 (shape0 a)); [now apply IH|].
    now apply fail_named_not_Done in Hpre.
Qed.

(** X1. The context check passes exactly when every array that is not null
    has the reference context; null arrays are passed over whatever their
    context, and the names play no part. *)
Theorem CheckCtx_accepts_iff :
  forall c arrays names,
    CheckCtx c arrays names = Done tt <->
    (forall a, In a arrays -> IsNullArray a = false -> ctx a = c).
Proof.
  intros c arrays names. unfold CheckCtx.
  rewrite CheckCtx_from_Done, forallb_forall. unfold ctx_ok.
  split; intros H a Hin.
  - intros Hnull. specialize (H a Hin). rewrite Hnull in H. cbn in H.
    symmetry. now apply DLContext_eqb_eq.
  - destruct (IsNullArray a) eqn:Hnull; [reflexivity|]. cbn.
    apply DLContext_eqb_eq. symmetry. now apply H.
Qed.

(** X2. The context check stops at the first array that is not null and has
    another context, and its error carries the name at that array's
    position; the arrays after it are not looked at. *)
Theorem CheckCtx_names_first_offender :
  forall c pre a post names n,
    CheckCtx c pre names = Done tt ->
    IsNullArray a = false ->
    ctx a <> c ->
    nth_error names (List.length pre) = Some n ->
    CheckCtx c (pre ++ a :: post) names = Fatal (ContextMismatch n).
Proof.
  intros c pre a post names n Hpre Hnull Hctx Hn. unfold CheckCtx in *.
  rewrite CheckCtx_from_app by assumption. cbn. rewrite Hnull.
  destruct (DLContext_eqb c (ctx a)) eqn:Heq.
  - apply DLContext_eqb_eq in Heq. congruence.
  - unfold fail_named. now rewrite Hn.
Qed.

(** X3. The contiguity check passes exactly when every array that is not
    null is contiguous. *)
Theorem CheckContiguous_accepts_iff :
  forall arrays names,
    CheckContiguous arrays names = Done tt <->
    (forall a, In a arrays -> IsNullArray a = false -> IsContiguous a = true).
Proof.
  intros arrays names. unfold CheckContiguous.
  rewrite CheckContiguous_from_Done, forallb_forall. unfold contiguous_ok.
  split; intros H a Hin.
  - intros Hnull. specialize (H a Hin). now rewrite Hnull in H.
  - destruct (IsNullArray a) eqn:Hnull; [reflexivity|]. cbn. now apply H.
Qed.

(** X4. The contiguity check stops at the first array that is not null and
    not contiguous, and its error carries the name at that position. *)
Theorem CheckContiguous_names_first_offender :
  forall pre a post names n,
    CheckContiguous pre names = Done tt ->
    IsNullArray a = false ->
    IsContiguous a = false ->
    nth_error names (List.length pre) = Some n ->
    CheckContiguous (pre ++ a :: post) names = Fatal (NotContiguous n).
Proof.
  intros pre a post names n Hpre Hnull Hc Hn. unfold CheckContiguous in *.
  rewrite CheckContiguous_from_app by assumption. cbn. rewrite Hnull, Hc.
  unfold fail_named. now rewrite Hn.
Qed.

(** X5. The shape check stops at the first array it does not accept.  With
    fewer than two dimensions the error reports the number of dimensions,
    and the role of the array is not even read; with two or more, the error
    reports the count of the array's role and the leading dimension found. *)
Theorem CheckShape_reports_first_offender :
  forall gdim uev_idx pre a post names n,
    CheckShape gdim uev_idx pre names = Done tt ->
    IsNullArray a = false ->
    nth_error names (List.length pre) = Some n ->
    (ndim a < 2 ->
     CheckShape gdim uev_idx (pre ++ a :: post) names
     = Fatal (ShapeMismatch n (TooFewDims (ndim a))))
    /\ (forall j g,
          2 <= ndim a ->
          nth_error uev_idx (List.length pre) = Some j ->
          vec_at gdim j = Some g ->
          g <> to_uint64 (shape0 a) ->
          CheckShape gdim uev_idx (pre ++ a :: post) names
          = Fatal (ShapeMismatch n (LeadingDim g (shape0 a)))).
Proof.
  intros gdim uev_idx pre a post names n Hpre Hnull Hn.
  unfold CheckShape in *.
  rewrite CheckShape_from_app by assumption. cbn. rewrite Hnull.
  unfold fail_named. rewrite Hn. split.
  - intros Hnd. apply Z.ltb_lt in Hnd. now rewrite Hnd.
  - intros j g Hnd Hj Hg Hneq.
    apply Z.ltb_ge in Hnd. rewrite Hnd, Hj, Hg.
    apply Z.eqb_neq in Hneq. now rewrite Hneq.
Qed.

(** X6. Null arrays are invisible to the three checks: replacing the null
    arrays of a list by any other null arrays, of whatever context,
    contiguity and shape, changes the outcome of none of them. *)
Theorem checks_ignore_null_arrays :
  forall arrays arrays',
    Forall2 (fun a b => a = b
                        \/ (IsNullArray a = true /\ IsNullArray b = true))
      arrays arrays' ->
    (forall c names, CheckCtx c arrays names = CheckCtx c arrays' names)
    /\ (forall names,
          CheckContiguous arrays names = CheckContiguous arrays' names)
    /\ (forall gdim uev_idx names,
          CheckShape gdim uev_idx arrays names
          = CheckShape gdim uev_idx arrays' names).
Proof.
  intros arrays arrays' Hrel.
  unfold CheckCtx, CheckContiguous, CheckShape. generalize 0%nat.
  induction Hrel as [|a b l l' Hab _ IH]; intros i; [auto|].
  destruct (IH (S i)) as (IHctx & IHcontig & IHshape).
  destruct Hab as [<-|[Ha Hb]]; cbn.
  - repeat apply conj; intros.
    + now rewrite IHctx.
    + now rewrite IHcontig.
    + rewrite IHshape. reflexivity.
  - rewrite Ha, Hb. auto.
Qed.

End CheckerFacts.

Section EntryFacts.

Context `{Ext : Externals}.

(** An array that is not null and has another context makes the context
    check fail, with the name of some operand. *)
Lemma CheckCtx_rejects c arrays names t :
  (List.length arrays <= List.length names)%nat ->
  In t arrays ->
  IsNullArray t = false ->
  ctx t <> c ->
  exists n, In n names /\ CheckCtx c arrays names = Fatal (ContextMismatch n).
Proof.
  intros Hlen Hin Hnull Hctx. unfold CheckCtx.
  destruct (CheckCtx_from 0 c arrays names) as [[]|e|] eqn:Hrun.
  - apply CheckCtx_from_Done in Hrun.
    rewrite forallb_forall in Hrun. specialize (Hrun t Hin).
    unfold ctx_ok in Hrun. rewrite Hnull in Hrun. cbn in Hrun.
    apply DLContext_eqb_eq in Hrun. congruence.
  - apply CheckCtx_from_Fatal in Hrun as (n & Hn & ->). eauto.
  - exfalso. eapply CheckCtx_from_defined; [|exact Hrun]. cbn. exact Hlen.
Qed.

Lemma CheckContiguous_rejects arrays names t :
  (List.length arrays <= List.length names)%nat ->
  In t arrays ->
  IsNullArray t = false ->
  IsContiguous t = false ->
  exists n, In n names /\ CheckContiguous arrays names = Fatal (NotContiguous n).
Proof.
  intros Hlen Hin Hnull Hc. unfold CheckContiguous.
  destruct (CheckContiguous_from 0 arrays names) as [[]|e|] eqn:Hrun.
  - apply CheckContiguous_from_Done in Hrun.
    rewrite forallb_forall in Hrun. specialize (Hrun t Hin).
    unfold contiguous_ok in Hrun. rewrite Hnull, Hc in Hrun. discriminate.
  - apply CheckContiguous_from_Fatal in Hrun as (n & Hn & ->). eauto.
  - exfalso. eapply CheckContiguous_from_defined; [|exact Hrun]. cbn.
    exact Hlen.
Qed.

(** The context check of an entry point, over its list of three or five
    operands, never reads a name out of range. *)
Ltac ctx_outcome Hc :=
  rewrite bind_lift;
  match goal with
  | |- context [CheckCtx ?c ?l ?ns] =>
      destruct (CheckCtx c l ns) as [[]|?e|] eqn:Hc;
      [| | exfalso; eapply CheckCtx_from_defined; [|exact Hc]; cbn; lia]
  end.

(** X7. An operand that is not null and lies on another device context than
    the reference one (the graph's for SpMM and SDDMM, that of feat for the
    two segment entry points) always ends the call in a context error that
    names an operand of the entry point, with nothing requested, started or
    written: the context check is the first statement of each entry point. *)
Theorem entry_rejects_foreign_context :
  (forall graph op reduce U E V ArgU ArgE w t,
      In t [U; E; V; ArgU; ArgE] ->
      IsNullArray t = false ->
      ctx t <> GraphContext graph ->
      exists n, In n SpMM_names
                /\ _CAPI_DGLKernelSpMM graph op reduce U E V ArgU ArgE w
                   = (Fatal (ContextMismatch n), w))
  /\ (forall graph op lhs rhs out lhs_target rhs_target w t,
      In t [lhs; rhs; out] ->
      IsNullArray t = false ->
      ctx t <> GraphContext graph ->
      exists n, In n ["lhs"; "rhs"; "out"]%string
                /\ _CAPI_DGLKernelSDDMM graph op lhs rhs out
                     lhs_target rhs_target w
                   = (Fatal (ContextMismatch n), w))
  /\ (forall op feat offsets out arg w t,
      In t [offsets; out] ->
      IsNullArray t = false ->
      ctx t <> ctx feat ->
      exists n, In n ["feat"; "offsets"; "out"]%string
                /\ _CAPI_DGLKernelSegmentReduce op feat offsets out arg w
                   = (Fatal (ContextMismatch n), w))
  /\ (forall feat arg out w t,
      In t [arg; out] ->
      IsNullArray t = false ->
      ctx t <> ctx feat ->
      exists n, In n ["feat"; "arg"; "out"]%string
                /\ _CAPI_DGLKernelBwdSegmentCmp feat arg out w
                   = (Fatal (ContextMismatch n), w)).
Proof.
  repeat apply conj.
  - intros graph op reduce U E V ArgU ArgE w t Hin Hnull Hctx.
    destruct (CheckCtx_rejects (GraphContext graph) [U; E; V; ArgU; ArgE]
                SpMM_names t) as (n & Hn & Hrun); auto.
    exists n. split; [exact Hn|].
    unfold _CAPI_DGLKernelSpMM. now rewrite bind_lift, Hrun.
  - intros graph op lhs rhs out lt rt w t Hin Hnull Hctx.
    destruct (CheckCtx_rejects (GraphContext graph) [lhs; rhs; out]
                ["lhs"; "rhs"; "out"]%string t) as (n & Hn & Hrun); auto.
    exists n. split; [exact Hn|].
    unfold _CAPI_DGLKernelSDDMM. now rewrite bind_lift, Hrun.
  - intros op feat offsets out arg w t Hin Hnull Hctx.
    destruct (CheckCtx_rejects (ctx feat) [feat; offsets; out]
                ["feat"; "offsets"; "out"]%string t) as (n & Hn & Hrun);
      auto; [right; exact Hin|].
    exists n. split; [exact Hn|].
    unfold _CAPI_DGLKernelSegmentReduce. now rewrite bind_lift, Hrun.
  - intros feat arg out w t Hin Hnull Hctx.
    destruct (CheckCtx_rejects (ctx feat) [feat; arg; out]
                ["feat"; "arg"; "out"]%string t) as (n & Hn & Hrun);
      auto; [right; exact Hin|].
    exists n. split; [exact Hn|].
    unfold _CAPI_DGLKernelBwdSegmentCmp. now rewrite bind_lift, Hrun.
Qed.

(** X8. An operand on the checked list of an entry point (the five tensors
    of SpMM, the three of SDDMM, feat, offsets and out of SegmentReduce,
    feat, arg and out of BackwardSegmentCmp) that is not null and not
    contiguous ends the call in a fatal error with nothing requested,
    started or written; the error is the contiguity one, naming an operand,
    whenever the context check before it passes. *)
Theorem entry_rejects_noncontiguous_operand :
  (forall graph op reduce U E V ArgU ArgE w t,
      In t [U; E; V; ArgU; ArgE] ->
      IsNullArray t = false ->
      IsContiguous t = false ->
      exists e,
        _CAPI_DGLKernelSpMM graph op reduce U E V ArgU ArgE w = (Fatal e, w)
        /\ (CheckCtx (GraphContext graph) [U; E; V; ArgU; ArgE] SpMM_names
            = Done tt ->
            exists n, In n SpMM_names /\ e = NotContiguous n))
  /\ (forall graph op lhs rhs out lhs_target rhs_target w t,
      In t [lhs; rhs; out] ->
      IsNullArray t = false ->
      IsContiguous t = false ->
      exists e,
        _CAPI_DGLKernelSDDMM graph op lhs rhs out lhs_target rhs_target w
        = (Fatal e, w)
        /\ (CheckCtx (GraphContext graph) [lhs; rhs; out]
              ["lhs"; "rhs"; "out"]%string = Done tt ->
            exists n, In n ["lhs"; "rhs"; "out"]%string
                      /\ e = NotContiguous n))
  /\ (forall op feat offsets out arg w t,
      In t [feat; offsets; out] ->
      IsNullArray t = false ->
      IsContiguous t = false ->
      exists e,
        _CAPI_DGLKernelSegmentReduce op feat offsets out arg w = (Fatal e, w)
        /\ (CheckCtx (ctx feat) [feat; offsets; out]
              ["feat"; "offsets"; "out"]%string = Done tt ->
            exists n, In n ["feat"; "offsets"; "out"]%string
                      /\ e = NotContiguous n))
  /\ (forall feat arg out w t,
      In t [feat; arg; out] ->
      IsNullArray t = false ->
      IsContiguous t = false ->
      exists e,
        _CAPI_DGLKernelBwdSegmentCmp feat arg out w = (Fatal e, w)
        /\ (CheckCtx (ctx feat) [feat; arg; out]
              ["feat"; "arg"; "out"]%string = Done tt ->
            exists n, In n ["feat"; "arg"; "out"]%string
                      /\ e = NotContiguous n)).
Proof.
  repeat apply conj.
  - intros graph op reduce U E V ArgU ArgE w t Hin Hnull Hc.
    destruct (CheckContiguous_rejects [U; E; V; ArgU; ArgE] SpMM_names t)
      as (n & Hn & Hrun); auto.
    unfold _CAPI_DGLKernelSpMM. ctx_outcome Hcheck.
    + rewrite bind_lift, Hrun. eauto.
    + eexists. split; [reflexivity|]. discriminate.
  - intros graph op lhs rhs out lt rt w t Hin Hnull Hc.
    destruct (CheckContiguous_rejects [lhs; rhs; out]
                ["lhs"; "rhs"; "out"]%string t) as (n & Hn & Hrun); auto.
    unfold _CAPI_DGLKernelSDDMM. ctx_outcome Hcheck.
    + rewrite bind_lift, Hrun. eauto.
    + eexists. split; [reflexivity|]. discriminate.
  - intros op feat offsets out arg w t Hin Hnull Hc.
    destruct (CheckContiguous_rejects [feat; offsets; out]
                ["feat"; "offsets"; "out"]%string t) as (n & Hn & Hrun); auto.
    unfold _CAPI_DGLKernelSegmentReduce. ctx_outcome Hcheck.
    + rewrite bind_lift, Hrun. eauto.
    + eexists. split; [reflexivity|]. discriminate.
  - intros feat arg out w t Hin Hnull Hc.
    destruct (CheckContiguous_rejects [feat; arg; out]
                ["feat"; "arg"; "out"]%string t) as (n & Hn & Hrun); auto.
    unfold _CAPI_DGLKernelBwdSegmentCmp. ctx_outcome Hcheck.
    + rewrite bind_lift, Hrun. eauto.
    + eexists. split; [reflexivity|]. discriminate.
Qed.

(** *** Calls that pass validation *)

Lemma CheckShape_from_accepts gdim uev_idx names arrays : forall i,
  (forall k a, nth_error arrays k = Some a ->
     exists j g, nth_error uev_idx (i + k) = Some j
                 /\ vec_at gdim j = Some g
                 /\ shape_ok g a = true) ->
  CheckShape_from i gdim uev_idx arrays names = Done tt.
Proof.
  induction arrays as [|a rest IH]; intros i Hall; cbn; [reflexivity|].
  assert (Hrest : CheckShape_from (S i) gdim uev_idx rest names = Done tt).
  { apply IH. intros k b Hk.
    replace (S i + k)%nat with (i + S k)%nat by lia. now apply Hall. }
  destruct (Hall 0%nat a eq_refl) as (j & g & Hj & Hg & Hok).
  rewrite Nat.add_0_r in Hj. unfold shape_ok in Hok.
  destruct (IsNullArray a); [exact Hrest|]. cbn in Hok.
  apply andb_true_iff in Hok as [Hnd Heq].
  apply negb_true_iff in Hnd. now rewrite Hnd, Hj, Hg, Heq.
Qed.

(** What a valid operand gives to each of the three checks. *)
Lemma valid_operand_ok c count t :
  (IsNullArray t = false ->
   ctx t = c /\ IsContiguous t = true /\ 2 <= ndim t
   /\ to_uint64 (shape0 t) = count) ->
  ctx_ok c t = true /\ contiguous_ok t = true /\ shape_ok count t = true.
Proof.
  intros H. unfold ctx_ok, contiguous_ok, shape_ok.
  destruct (IsNullArray t); [auto|].
  destruct (H eq_refl) as (Hc & Hk & Hnd & Hs). cbn.
  repeat apply conj.
  - apply DLContext_eqb_eq. congruence.
  - exact Hk.
  - apply andb_true_iff. split.
    + apply negb_true_iff. now apply Z.ltb_ge.
    + apply Z.eqb_eq. congruence.
Qed.

Lemma CheckEdgeTypes_one graph :
  NumEdgeTypes graph = 1 -> CheckEdgeTypes graph = Done tt.
Proof. intros H. unfold CheckEdgeTypes. now rewrite H. Qed.

Ltac role_by_position Hk :=
  repeat (match type of Hk with
          | nth_error _ ?n = Some _ => destruct n as [|?]
          end;
          [cbn in Hk; injection Hk as <-; cbn;
           eexists; eexists; repeat apply conj;
           [reflexivity
           |first [reflexivity | apply vec_at_target; assumption]
           |assumption]
          |cbn in Hk]);
  try (match type of Hk with
       | nth_error _ ?n = Some _ => destruct n; discriminate
       end).

(** X9. Validation never turns a well-formed call away.  With a single edge
    type, and every operand that is not null on the graph's context,
    contiguous, of at least two dimensions and leading with the count of its
    role, the SpMM entry point is SpMM on those operands, ArgU and ArgE
    handed on as the auxiliary list; likewise the SDDMM entry point, for
    targets in 0..2, is SDDMM with the targets handed on. *)
Theorem valid_call_reaches_dispatch :
  (forall graph op reduce U E V ArgU ArgE w,
      NumEdgeTypes graph = 1 ->
      (forall t count,
          In (t, count) (SpMM_operands graph U E V ArgU ArgE) ->
          IsNullArray t = false ->
          ctx t = GraphContext graph /\ IsContiguous t = true
          /\ 2 <= ndim t /\ to_uint64 (shape0 t) = count) ->
      _CAPI_DGLKernelSpMM graph op reduce U E V ArgU ArgE w
      = SpMM op reduce graph U E V [ArgU; ArgE] w)
  /\ (forall graph op lhs rhs out lhs_target rhs_target w,
      NumEdgeTypes graph = 1 ->
      0 <= lhs_target <= 2 ->
      0 <= rhs_target <= 2 ->
      (forall t count,
          In (t, count)
             (SDDMM_operands graph lhs rhs out lhs_target rhs_target) ->
          IsNullArray t = false ->
          ctx t = GraphContext graph /\ IsContiguous t = true
          /\ 2 <= ndim t /\ to_uint64 (shape0 t) = count) ->
      _CAPI_DGLKernelSDDMM graph op lhs rhs out lhs_target rhs_target w
      = SDDMM op graph lhs rhs out lhs_target rhs_target w).
Proof.
  split.
  - intros graph op reduce U E V ArgU ArgE w Hedge Hops.
    assert (Hall : forall t count,
               In (t, count) (SpMM_operands graph U E V ArgU ArgE) ->
               ctx_ok (GraphContext graph) t = true
               /\ contiguous_ok t = true /\ shape_ok count t = true).
    { intros t count Hin. apply valid_operand_ok. now apply Hops. }
    unfold SpMM_operands in Hall.
    destruct (Hall U _ (or_introl eq_refl)) as (HcU & HkU & HsU).
    destruct (Hall E _ (or_intror (or_introl eq_refl))) as (HcE & HkE & HsE).
    destruct (Hall V _ (or_intror (or_intror (or_introl eq_refl))))
      as (HcV & HkV & HsV).
    destruct (Hall ArgU _
                (or_intror (or_intror (or_intror (or_introl eq_refl)))))
      as (HcAU & HkAU & HsAU).
    destruct (Hall ArgE _
                (or_intror (or_intror (or_intror (or_intror
                                                    (or_introl eq_refl))))))
      as (HcAE & HkAE & HsAE).
    assert (Hctx : CheckCtx (GraphContext graph) [U; E; V; ArgU; ArgE]
                     SpMM_names = Done tt).
    { apply CheckCtx_from_Done. cbn.
      now rewrite HcU, HcE, HcV, HcAU, HcAE. }
    assert (Hcontig : CheckContiguous [U; E; V; ArgU; ArgE] SpMM_names
                      = Done tt).
    { apply CheckContiguous_from_Done. cbn.
      now rewrite HkU, HkE, HkV, HkAU, HkAE. }
    assert (Hshape : CheckShape
                       [NumVertices graph (fst (FindEdge graph 0));
                        NumEdges graph 0;
                        NumVertices graph (snd (FindEdge graph 0))]
                       [0; 1; 2; 2; 2] [U; E; V; ArgU; ArgE] SpMM_names
                     = Done tt).
    { apply CheckShape_from_accepts. intros k a Hk. role_by_position Hk. }
    unfold _CAPI_DGLKernelSpMM. cbv zeta.
    now rewrite bind_lift, Hctx, bind_lift, Hcontig, bind_lift,
      (CheckEdgeTypes_one _ Hedge), bind_lift, Hshape.
  - intros graph op lhs rhs out lt rt w Hedge Hlt Hrt Hops.
    assert (Hall : forall t count,
               In (t, count) (SDDMM_operands graph lhs rhs out lt rt) ->
               ctx_ok (GraphContext graph) t = true
               /\ contiguous_ok t = true /\ shape_ok count t = true).
    { intros t count Hin. apply valid_operand_ok. now apply Hops. }
    unfold SDDMM_operands, count_of_target in Hall.
    destruct (Hall lhs _ (or_introl eq_refl)) as (HcL & HkL & HsL).
    destruct (Hall rhs _ (or_intror (or_introl eq_refl))) as (HcR & HkR & HsR).
    destruct (Hall out _ (or_intror (or_intror (or_introl eq_refl))))
      as (HcO & HkO & HsO).
    assert (Hctx : CheckCtx (GraphContext graph) [lhs; rhs; out]
                     ["lhs"; "rhs"; "out"]%string = Done tt).
    { apply CheckCtx_from_Done. cbn. now rewrite HcL, HcR, HcO. }
    assert (Hcontig : CheckContiguous [lhs; rhs; out]
                        ["lhs"; "rhs"; "out"]%string = Done tt).
    { apply CheckContiguous_from_Done. cbn. now rewrite HkL, HkR, HkO. }
    assert (Hshape : CheckShape
                       [NumVertices graph (fst (FindEdge graph 0));
                        NumEdges graph 0;
                        NumVertices graph (snd (FindEdge graph 0))]
                       [lt; rt; 1] [lhs; rhs; out]
                       ["U_data"; "E_data"; "V_data"]%string = Done tt).
    { apply CheckShape_from_accepts. intros k a Hk. role_by_position Hk. }
    unfold _CAPI_DGLKernelSDDMM. cbv zeta.
    now rewrite bind_lift, Hctx, bind_lift, Hcontig, bind_lift,
      (CheckEdgeTypes_one _ Hedge), bind_lift, Hshape.
Qed.

(** *** Dispatch *)

Create HintDb entry_unfold.
#[local] Hint Unfold SpMM SDDMM GetEdgeMapping SegmentReduceDispatch
  BackwardSegmentCmpDispatch select_format calc_bcast xpu_switch
  id_type_switch float_bits_switch invoke bind ret fatal lift : entry_unfold.

Ltac run_cases :=
  autounfold with entry_unfold; cbn;
  repeat match goal with
         | |- context [match ?o with Some _ => _ | None => _ end] =>
             destruct o eqn:?; cbn
         | |- context [match ?f with kCOO => _ | kCSR => _ | kCSC => _ end] =>
             destruct f eqn:?; cbn
         | |- context [let (_, _) := ?p in _] => destruct p as [[|] ?] eqn:?; cbn
         end.

Ltac pass_check :=
  rewrite bind_lift;
  match goal with
  | |- context [match ?o with Done _ => _ | Fatal _ => _ | Undefined => _ end] =>
      let Hc := fresh "Hpass" in destruct o as [[]|?e|] eqn:Hc
  end.

(** X10. Once the broadcast and the dispatch key resolve, the selected format
    picks the kernel and the matrix it is given: for SpMM, CSC starts SpMMCsr
    on the graph's CSC matrix and COO starts SpMMCoo on its COO matrix; for
    SDDMM, CSR starts SDDMMCsr on the CSR matrix and COO starts SDDMMCoo on
    the COO matrix.  The operator names, the operands, the auxiliary list and
    the targets are handed on unchanged, after the one format request. *)
Theorem format_picks_kernel_and_matrix :
  (forall op reduce graph ufeat efeat out out_aux w bcast XPU IdT fbits,
      CalcBcastOff op ufeat efeat = Some bcast ->
      dispatch_key (device_type (GraphContext graph)) (DataType graph)
        (dtype out) = Some (XPU, IdT, fbits) ->
      let w1 := mkWorld (buffers w)
                  (trace w ++ [SelectFormatRequest 0 csc_code]) in
      (SelectFormat graph 0 csc_code = kCSC ->
       SpMM op reduce graph ufeat efeat out out_aux w
       = invoke (SpMMCsr XPU IdT fbits op reduce bcast (GetCSCMatrix graph 0)
                   ufeat efeat out out_aux) w1)
      /\ (SelectFormat graph 0 csc_code = kCOO ->
          SpMM op reduce graph ufeat efeat out out_aux w
          = invoke (SpMMCoo XPU IdT fbits op reduce bcast
                      (GetCOOMatrix graph 0) ufeat efeat out out_aux) w1))
  /\ (forall op graph lhs rhs out lhs_target rhs_target w bcast XPU IdT fbits,
      CalcBcastOff op lhs rhs = Some bcast ->
      dispatch_key (device_type (GraphContext graph)) (DataType graph)
        (dtype out) = Some (XPU, IdT, fbits) ->
      let w1 := mkWorld (buffers w)
                  (trace w ++ [SelectFormatRequest 0 coo_code]) in
      (SelectFormat graph 0 coo_code = kCSR ->
       SDDMM op graph lhs rhs out lhs_target rhs_target w
       = invoke (SDDMMCsr XPU IdT fbits op bcast (GetCSRMatrix graph 0)
                   lhs rhs out lhs_target rhs_target) w1)
      /\ (SelectFormat graph 0 coo_code = kCOO ->
          SDDMM op graph lhs rhs out lhs_target rhs_target w
          = invoke (SDDMMCoo XPU IdT fbits op bcast (GetCOOMatrix graph 0)
                      lhs rhs out lhs_target rhs_target) w1)).
Proof.
  split.
  - intros op reduce graph ufeat efeat out out_aux w bcast XPU IdT fbits
      Hb Hkey. cbv zeta. unfold dispatch_key in Hkey.
    destruct (ATEN_XPU_SWITCH_CUDA (device_type (GraphContext graph)))
      as [x|] eqn:Hx; [|discriminate].
    destruct (ATEN_ID_TYPE_SWITCH (DataType graph)) as [i|] eqn:Hi;
      [|discriminate].
    destruct (ATEN_FLOAT_BITS_SWITCH (dtype out)) as [b|] eqn:Hf;
      [|discriminate].
    injection Hkey as -> -> ->.
    split; intros Hfmt; unfold SpMM, select_format, bind at 1; cbn;
      unfold calc_bcast, xpu_switch, id_type_switch, float_bits_switch, bind,
        ret; cbn; now rewrite Hfmt, Hb, Hx, Hi, Hf.
  - intros op graph lhs rhs out lt rt w bcast XPU IdT fbits Hb Hkey.
    cbv zeta. unfold dispatch_key in Hkey.
    destruct (ATEN_XPU_SWITCH_CUDA (device_type (GraphContext graph)))
      as [x|] eqn:Hx; [|discriminate].
    destruct (ATEN_ID_TYPE_SWITCH (DataType graph)) as [i|] eqn:Hi;
      [|discriminate].
    destruct (ATEN_FLOAT_BITS_SWITCH (dtype out)) as [b|] eqn:Hf;
      [|discriminate].
    injection Hkey as -> -> ->.
    split; intros Hfmt; unfold SDDMM, select_format, bind at 1; cbn;
      unfold calc_bcast, xpu_switch, id_type_switch, float_bits_switch, bind,
        ret; cbn; now rewrite Hfmt, Hb, Hx, Hi, Hf.
Qed.

(** X11. A broadcast that does not resolve ends SpMM and SDDMM in the
    broadcast error whatever the dispatch key and the selected format are:
    it is examined before the switches.  The format has by then been
    requested of the graph; no kernel is started and nothing is written. *)
Theorem broadcast_failure_comes_first :
  (forall op reduce graph ufeat efeat out out_aux w,
      CalcBcastOff op ufeat efeat = None ->
      SpMM op reduce graph ufeat efeat out out_aux w
      = (Fatal BroadcastIncompatible,
         mkWorld (buffers w) (trace w ++ [SelectFormatRequest 0 csc_code])))
  /\ (forall op graph lhs rhs out lhs_target rhs_target w,
      CalcBcastOff op lhs rhs = None ->
      SDDMM op graph lhs rhs out lhs_target rhs_target w
      = (Fatal BroadcastIncompatible,
         mkWorld (buffers w) (trace w ++ [SelectFormatRequest 0 coo_code]))).
Proof.
  split; intros until w; intros Hb;
    [unfold SpMM | unfold SDDMM];
    unfold select_format, calc_bcast, bind, fatal, lift; cbn;
    now rewrite Hb.
Qed.

(** *** What no call does *)

Ltac no_kernel :=
  exists []; cbn; rewrite ?app_nil_r; repeat apply conj;
  [reflexivity | lia | reflexivity | exists []; now rewrite app_nil_r].

Ltac after_dispatch :=
  run_cases;
  first
    [ eexists []; rewrite ?kernel_runs_app; cbn; rewrite ?app_nil_r;
      repeat apply conj;
      [reflexivity | cbn; lia | reflexivity
      | first [eexists; reflexivity | exists []; now rewrite app_nil_r]]
    | eexists [_]; rewrite ?kernel_runs_app; cbn; rewrite ?app_nil_r;
      repeat apply conj;
      [reflexivity | cbn; lia | discriminate
      | rewrite <- ?app_assoc; eexists; reflexivity] ].

(** X12. Every call of the four entry points and of GetEdgeMapping starts at
    most one kernel, only appends to the record of format requests and kernel
    starts, and leaves the buffers as they were unless it starts a kernel. *)
Theorem calls_start_at_most_one_kernel :
  (forall graph op reduce U E V ArgU ArgE,
      single_kernel_call (_CAPI_DGLKernelSpMM graph op reduce U E V ArgU ArgE))
  /\ (forall graph op lhs rhs out lhs_target rhs_target,
      single_kernel_call
        (_CAPI_DGLKernelSDDMM graph op lhs rhs out lhs_target rhs_target))
  /\ (forall op feat offsets out arg,
      single_kernel_call (_CAPI_DGLKernelSegmentReduce op feat offsets out arg))
  /\ (forall feat arg out,
      single_kernel_call (_CAPI_DGLKernelBwdSegmentCmp feat arg out))
  /\ (forall graph,
      single_kernel_call (_CAPI_DGLKernelGetEdgeMapping graph)).
Proof.
  repeat apply conj; intros; intros w; unfold starts.
  - unfold _CAPI_DGLKernelSpMM. cbv zeta.
    do 4 (pass_check; [|no_kernel|no_kernel]). after_dispatch.
  - unfold _CAPI_DGLKernelSDDMM. cbv zeta.
    do 4 (pass_check; [|no_kernel|no_kernel]). after_dispatch.
  - unfold _CAPI_DGLKernelSegmentReduce.
    do 2 (pass_check; [|no_kernel|no_kernel]). after_dispatch.
  - unfold _CAPI_DGLKernelBwdSegmentCmp.
    do 2 (pass_check; [|no_kernel|no_kernel]). after_dispatch.
  - unfold _CAPI_DGLKernelGetEdgeMapping. after_dispatch.
Qed.

(** X13. The SDDMM entry point does not check its targets.  With the checks
    before the shape check passed, an lhs that is not null and has at least
    two dimensions, and an lhs_target outside 0..2, the shape check reads the
    vector of counts out of range; and when lhs and rhs are both null the
    targets are never read, so the shape check does not depend on them. *)
Theorem SDDMM_targets_are_not_validated :
  (forall graph op lhs rhs out lhs_target rhs_target w,
      CheckCtx (GraphContext graph) [lhs; rhs; out]
        ["lhs"; "rhs"; "out"]%string = Done tt ->
      CheckContiguous [lhs; rhs; out] ["lhs"; "rhs"; "out"]%string
      = Done tt ->
      NumEdgeTypes graph = 1 ->
      IsNullArray lhs = false ->
      2 <= ndim lhs ->
      lhs_target < 0 \/ 2 < lhs_target ->
      _CAPI_DGLKernelSDDMM graph op lhs rhs out lhs_target rhs_target w
      = (Undefined, w))
  /\ (forall gdim lhs rhs out names t1 t2 t1' t2',
      IsNullArray lhs = true ->
      IsNullArray rhs = true ->
      CheckShape gdim [t1; t2; 1] [lhs; rhs; out] names
      = CheckShape gdim [t1'; t2'; 1] [lhs; rhs; out] names).
Proof.
  split.
  - intros graph op lhs rhs out lt rt w Hctx Hcontig Hedge Hnull Hnd Hlt.
    unfold _CAPI_DGLKernelSDDMM. cbv zeta.
    rewrite bind_lift, Hctx, bind_lift, Hcontig, bind_lift,
      (CheckEdgeTypes_one _ Hedge), bind_lift.
    unfold CheckShape. cbn. rewrite Hnull.
    apply Z.ltb_ge in Hnd. rewrite Hnd.
    assert (Hout : forall a b c : Z, vec_at [a; b; c] lt = None).
    { intros a b c. unfold vec_at.
      destruct (lt <? 0) eqn:Hneg; [reflexivity|].
      apply Z.ltb_ge in Hneg. apply nth_error_None. cbn. lia. }
    now rewrite Hout.
  - intros gdim lhs rhs out names t1 t2 t1' t2' Hl Hr.
    unfold CheckShape. cbn. now rewrite Hl, Hr.
Qed.

(** X14. The SegmentReduce entry point hands arg on without looking at it:
    once feat, offsets and out pass the context and contiguity checks and
    the key (device kind of feat, dtype of offsets, dtype of feat) resolves,
    the call is the SegmentReduce kernel at that key on feat, offsets, out
    and arg, for every arg. *)
Theorem SegmentReduce_hands_arg_on :
  forall op feat offsets out arg w XPU IdT fbits,
    CheckCtx (ctx feat) [feat; offsets; out]
      ["feat"; "offsets"; "out"]%string = Done tt ->
    CheckContiguous [feat; offsets; out]
      ["feat"; "offsets"; "out"]%string = Done tt ->
    dispatch_key (device_type (ctx feat)) (dtype offsets) (dtype feat)
    = Some (XPU, IdT, fbits) ->
    _CAPI_DGLKernelSegmentReduce op feat offsets out arg w
    = invoke (SegmentReduce XPU IdT fbits op feat offsets out arg) w.
Proof.
  intros op feat offsets out arg w XPU IdT fbits Hctx Hcontig Hkey.
  unfold _CAPI_DGLKernelSegmentReduce.
  rewrite bind_lift, Hctx, bind_lift, Hcontig.
  unfold dispatch_key in Hkey.
  destruct (ATEN_XPU_SWITCH_CUDA (device_type (ctx feat))) as [x|] eqn:Hx;
    [|discriminate].
  destruct (ATEN_ID_TYPE_SWITCH (dtype offsets)) as [i|] eqn:Hi;
    [|discriminate].
  destruct (ATEN_FLOAT_BITS_SWITCH (dtype feat)) as [b|] eqn:Hf;
    [|discriminate].
  injection Hkey as -> -> ->.
  unfold SegmentReduceDispatch, xpu_switch, id_type_switch,
    float_bits_switch, bind, ret. cbn. now rewrite Hx, Hi, Hf.
Qed.

(** *** The FeatGraph entry point *)

(** X15. The FeatGraph SDDMM entry point never asks the graph to select a
    format and starts none of the dispatched kernels: the record of requests
    and kernel starts is always left as it was.  It writes only when the
    context check, the contiguity check and the single-edge-type check have
    passed, and then the buffers are those the FeatGraph kernel leaves when
    given the row and column arrays of the graph's COO matrix and the three
    tensors; no shape of lhs, rhs or out is examined. *)
Theorem FG_SDDMMTreeReduction_skips_shape_and_format :
  forall fg graph lhs rhs out w,
    let run := _CAPI_FG_SDDMMTreeReduction fg graph lhs rhs out in
    trace (snd (run w)) = trace w
    /\ (buffers (snd (run w)) <> buffers w ->
        CheckCtx (GraphContext graph) [lhs; rhs; out]
          ["lhs"; "rhs"; "out"]%string = Done tt
        /\ CheckContiguous [lhs; rhs; out] ["lhs"; "rhs"; "out"]%string
           = Done tt
        /\ NumEdgeTypes graph = 1)
    /\ (CheckCtx (GraphContext graph) [lhs; rhs; out]
          ["lhs"; "rhs"; "out"]%string = Done tt ->
        CheckContiguous [lhs; rhs; out] ["lhs"; "rhs"; "out"]%string
        = Done tt ->
        NumEdgeTypes graph = 1 ->
        buffers (snd (run w))
        = snd (fg (row (GetCOOMatrix graph 0)) (col (GetCOOMatrix graph 0))
                 lhs rhs out (buffers w))).
Proof.
  intros fg graph lhs rhs out w. cbv zeta.
  unfold _CAPI_FG_SDDMMTreeReduction.
  pass_check; [|cbn; repeat apply conj; congruence
               |cbn; repeat apply conj; congruence].
  pass_check; [|cbn; repeat apply conj; congruence
               |cbn; repeat apply conj; congruence].
  rewrite bind_lift. unfold CheckEdgeTypes.
  destruct (Z.eqb_spec (NumEdgeTypes graph) 1) as [Hone|Hne].
  - destruct (fg (row (GetCOOMatrix graph 0)) (col (GetCOOMatrix graph 0))
                lhs rhs out (buffers w)) as [ok b]. cbn. auto.
  - cbn. repeat apply conj; congruence.
Qed.

End EntryFacts.

(** * The further properties at concrete calls *)
Section MoreRuns.

Import SpecModel MoreInputs.

#[local] Existing Instance model.

(** A null tensor on another device and not contiguous, between two tensors
    on the CPU, passes both checks. *)
Lemma CheckCtx_accepts_iff_witness :
  IsNullArray other_null = true
  /\ ctx other_null <> cpu0
  /\ CheckCtx cpu0 [U_ok; other_null; V_ok] ["U_data"; "E_data"; "out"]%string
     = Done tt.
Proof.
  split; [reflexivity|]. split; [discriminate|].
  apply (CheckCtx_accepts_iff (Ext := model)).
  intros a [<-|[<-|[<-|[]]]] Hnull; first [reflexivity | discriminate Hnull].
Defined.

Lemma CheckCtx_names_first_offender_witness :
  CheckCtx cpu0 ([U_ok] ++ E_gpu :: [U_gpu])
    ["U_data"; "E_data"; "out"]%string
  = Fatal (ContextMismatch "E_data").
Proof.
  apply (CheckCtx_names_first_offender (Ext := model)).
  - reflexivity.
  - reflexivity.
  - discriminate.
  - reflexivity.
Defined.

Lemma CheckContiguous_accepts_iff_witness :
  IsContiguous other_null = false
  /\ CheckContiguous [U_ok; other_null; V_ok]
       ["U_data"; "E_data"; "out"]%string = Done tt.
Proof.
  split; [reflexivity|].
  apply (CheckContiguous_accepts_iff (Ext := model)).
  intros a [<-|[<-|[<-|[]]]] Hnull; first [reflexivity | discriminate Hnull].
Defined.

Lemma CheckContiguous_names_first_offender_witness :
  CheckContiguous ([U_ok] ++ E_strided :: [out_strided])
    ["U_data"; "E_data"; "out"]%string
  = Fatal (NotContiguous "E_data").
Proof.
  apply (CheckContiguous_names_first_offender (Ext := model));
    reflexivity.
Defined.

Lemma CheckShape_reports_first_offender_witness :
  CheckShape [3; 4; 2] [0; 1; 2] ([U_ok] ++ E_flat :: [V_ok])
    ["U_data"; "E_data"; "out"]%string
  = Fatal (ShapeMismatch "E_data" (TooFewDims 1))
  /\ CheckShape [3; 4; 2] [0; 1; 2] ([U_ok] ++ E_short :: [V_ok])
       ["U_data"; "E_data"; "out"]%string
     = Fatal (ShapeMismatch "E_data" (LeadingDim 4 3)).
Proof.
  split.
  - apply (CheckShape_reports_first_offender (Ext := model)
             [3; 4; 2] [0; 1; 2] [U_ok] E_flat [V_ok]
             ["U_data"; "E_data"; "out"]%string "E_data"%string);
      reflexivity.
  - apply (proj2 (CheckShape_reports_first_offender (Ext := model)
                    [3; 4; 2] [0; 1; 2] [U_ok] E_short [V_ok]
                    ["U_data"; "E_data"; "out"]%string "E_data"%string
                    eq_refl eq_refl eq_refl) 1 4).
    + cbn. lia.
    + reflexivity.
    + reflexivity.
    + cbn. lia.
Defined.

Lemma checks_ignore_null_arrays_witness :
  CheckCtx cpu0 [U_ok; null_array; V_ok] ["U_data"; "E_data"; "out"]%string
  = CheckCtx cpu0 [U_ok; other_null; V_ok] ["U_data"; "E_data"; "out"]%string
  /\ CheckShape [3; 4; 2] [0; 1; 2] [U_ok; null_array; V_ok]
       ["U_data"; "E_data"; "out"]%string
     = CheckShape [3; 4; 2] [0; 1; 2] [U_ok; other_null; V_ok]
         ["U_data"; "E_data"; "out"]%string.
Proof.
  assert (Hrel : Forall2
                   (fun a b => a = b
                               \/ (IsNullArray a = true /\ IsNullArray b = true))
                   [U_ok; null_array; V_ok] [U_ok; other_null; V_ok]).
  { constructor; [left; reflexivity|].
    constructor; [right; split; reflexivity|].
    constructor; [left; reflexivity|]. constructor. }
  destruct (checks_ignore_null_arrays (Ext := model) _ _ Hrel)
    as (Hctx & _ & Hshape).
  split; [apply Hctx | apply Hshape].
Defined.

Lemma entry_rejects_foreign_context_witness :
  (exists n, In n SpMM_names
             /\ _CAPI_DGLKernelSpMM (graph_with kCSC 1) "mul" "sum"
                  U_ok E_gpu V_ok null_array null_array world0
                = (Fatal (ContextMismatch n), world0))
  /\ (exists n, In n ["feat"; "offsets"; "out"]%string
                /\ _CAPI_DGLKernelSegmentReduce "sum"
                     feat32 offsets64 out_gpu null_array world0
                   = (Fatal (ContextMismatch n), world0)).
Proof.
  destruct (entry_rejects_foreign_context (Ext := model))
    as (HSpMM & _ & HSeg & _).
  split.
  - apply (HSpMM (graph_with kCSC 1) "mul"%string "sum"%string
             U_ok E_gpu V_ok null_array null_array world0 E_gpu).
    + cbn. auto.
    + reflexivity.
    + discriminate.
  - apply (HSeg "sum"%string feat32 offsets64 out_gpu null_array world0
             out_gpu).
    + cbn. auto.
    + reflexivity.
    + discriminate.
Defined.

Lemma entry_rejects_noncontiguous_operand_witness :
  (exists n,
      _CAPI_DGLKernelSDDMM (graph_with kCOO 1) "add"
        U_ok E_strided out_edges 0 1 world0
      = (Fatal (NotContiguous n), world0))
  /\ (exists n,
         _CAPI_DGLKernelBwdSegmentCmp feat32 arg_strided grad_in world0
         = (Fatal (NotContiguous n), world0)).
Proof.
  destruct (entry_rejects_noncontiguous_operand (Ext := model))
    as (_ & HSDDMM & _ & HBwd).
  split.
  - destruct (HSDDMM (graph_with kCOO 1) "add"%string
                U_ok E_strided out_edges 0 1 world0 E_strided)
      as (e & Hrun & Hkind).
    + cbn. auto.
    + reflexivity.
    + reflexivity.
    + destruct (Hkind eq_refl) as (n & _ & ->). exists n. exact Hrun.
  - destruct (HBwd feat32 arg_strided grad_in world0 arg_strided)
      as (e & Hrun & Hkind).
    + cbn. auto.
    + reflexivity.
    + reflexivity.
    + destruct (Hkind eq_refl) as (n & _ & ->). exists n. exact Hrun.
Defined.

Lemma valid_call_reaches_dispatch_witness :
  _CAPI_DGLKernelSpMM (graph_with kCSC 1) "mul" "sum"
    U_ok E_ok V_ok null_array null_array world0
  = SpMM "mul" "sum" (graph_with kCSC 1) U_ok E_ok V_ok
      [null_array; null_array] world0
  /\ _CAPI_DGLKernelSDDMM (graph_with kCOO 1) "dot"
       U_ok V_ok out_edges 0 2 world0
     = SDDMM "dot" (graph_with kCOO 1) U_ok V_ok out_edges 0 2 world0.
Proof.
  destruct (valid_call_reaches_dispatch (Ext := model)) as (HSpMM & HSDDMM).
  split.
  - apply HSpMM; [reflexivity|].
    intros t count Hin. cbn in Hin.
    destruct Hin as [H|[H|[H|[H|[H|[]]]]]]; injection H as <- <-;
      intros Hnull; try discriminate Hnull;
      repeat apply conj; first [reflexivity | cbn; lia].
  - apply HSDDMM; [reflexivity|lia|lia|].
    intros t count Hin. cbn in Hin.
    destruct Hin as [H|[H|[H|[]]]]; injection H as <- <-;
      intros Hnull; try discriminate Hnull;
      repeat apply conj; first [reflexivity | cbn; lia].
Defined.

Lemma format_picks_kernel_and_matrix_witness :
  SpMM "mul" "max" (graph_with kCSC 1) U_ok E_ok V_ok
    [null_array; null_array] world0
  = invoke (SpMMCsr kDLCPU int64_t 32 "mul" "max" [8]
              (GetCSCMatrix (graph_with kCSC 1) 0) U_ok E_ok V_ok
              [null_array; null_array])
      (mkWorld [] [SelectFormatRequest 0 csc_code])
  /\ SDDMM "dot" (graph_with kCOO 1) U_ok V_ok out_edges 0 2 world0
     = invoke (SDDMMCoo kDLCPU int64_t 32 "dot" [8]
                 (GetCOOMatrix (graph_with kCOO 1) 0) U_ok V_ok out_edges 0 2)
         (mkWorld [] [SelectFormatRequest 0 coo_code]).
Proof.
  destruct (format_picks_kernel_and_matrix (Ext := model))
    as (HSpMM & HSDDMM).
  split.
  - apply (proj1 (HSpMM "mul"%string "max"%string (graph_with kCSC 1)
                    U_ok E_ok V_ok [null_array; null_array] world0
                    [8] kDLCPU int64_t 32 eq_refl eq_refl)).
    reflexivity.
  - apply (proj2 (HSDDMM "dot"%string (graph_with kCOO 1)
                    U_ok V_ok out_edges 0 2 world0
                    [8] kDLCPU int64_t 32 eq_refl eq_refl)).
    reflexivity.
Defined.

(** Feature widths 8 and 5 do not broadcast. *)
Lemma broadcast_failure_comes_first_witness :
  CalcBcastOff "mul" U_ok E_wide = None
  /\ SpMM "mul" "sum" (graph_with kCSR 1) U_ok E_wide V_ok
       [null_array; null_array] world0
     = (Fatal BroadcastIncompatible,
        mkWorld [] [SelectFormatRequest 0 csc_code]).
Proof.
  split; [reflexivity|].
  apply (proj1 (broadcast_failure_comes_first (Ext := model))
           "mul"%string "sum"%string (graph_with kCSR 1) U_ok E_wide V_ok
           [null_array; null_array] world0).
  reflexivity.
Defined.

Lemma SDDMM_targets_are_not_validated_witness :
  _CAPI_DGLKernelSDDMM (graph_with kCOO 1) "dot"
    U_ok V_ok out_edges 5 2 world0 = (Undefined, world0).
Proof.
  apply (proj1 (SDDMM_targets_are_not_validated (Ext := model))).
  - reflexivity.
  - reflexivity.
  - reflexivity.
  - reflexivity.
  - cbn. lia.
  - right. lia.
Defined.

(** An arg on another device, of a float dtype, reaches the kernel. *)
Lemma SegmentReduce_hands_arg_on_witness :
  ctx out_gpu <> ctx feat32
  /\ _CAPI_DGLKernelSegmentReduce "max" feat32 offsets64 out32 out_gpu world0
     = invoke (SegmentReduce kDLCPU int64_t 32 "max"
                 feat32 offsets64 out32 out_gpu) world0.
Proof.
  split; [discriminate|].
  apply (SegmentReduce_hands_arg_on (Ext := model)); reflexivity.
Defined.

(** No count of the sample graph (3, 4 or 2) is the leading dimension 7 of
    lhs, and the output buffer is written all the same. *)
Lemma FG_SDDMMTreeReduction_skips_shape_and_format_witness :
  shape0 lhs_odd = 7
  /\ buffers (snd (_CAPI_FG_SDDMMTreeReduction tree_reduction
                     (graph_with kCSR 1) lhs_odd V_ok out_edges world0))
     = [data out_edges]
  /\ trace (snd (_CAPI_FG_SDDMMTreeReduction tree_reduction
                   (graph_with kCSR 1) lhs_odd V_ok out_edges world0))
     = [].
Proof.
  destruct (FG_SDDMMTreeReduction_skips_shape_and_format (Ext := model)
              tree_reduction (graph_with kCSR 1) lhs_odd V_ok out_edges
              world0) as (Htrace & _ & Hbuf).
  split; [reflexivity|]. split.
  - rewrite (Hbuf eq_refl eq_refl eq_refl). reflexivity.
  - exact Htrace.
Defined.

End MoreRuns.
